(** * krupicka_sem.py: metadata extraction, plotting and report writing

  A shallow embedding of [src/krupicka_sem.py] and the properties its
  specification states about it.

  Layout of the development:
  - [PyFloat]: Python's [float] (IEEE 754 binary64) with the three
    operations the script uses: [int -> float], subtraction, [round(x, 2)];
  - [Json]: the values produced by [json.loads];
  - [Py]: the exceptions and the results of the script;
  - [Re], [Pandas]: [Timestamp], and the [strptime] matcher behind
    [pd.to_datetime] with the regular expressions it is made of;
  - [JsonText]: a decoder for a fragment of JSON, used on concrete texts;
  - [Pathlib]: [Path.glob] on one directory;
  - the records, the data frame, the events and the world of the script;
  - the three functions of the script and its entry point, in source order;
  - the vocabulary of the properties, and the properties;
  - further properties of the code: the files found, the records and the
    runs of a call, its errors, the plot, the entry point, and the
    conversion on the readings of a camera.

  What the model takes from the libraries, and where it stops:
  - text is a string of bytes: the digits and the white space of a
    timestamp are the ASCII ones;
  - [json.loads] is a parameter of the script ([None] when it raises), and
    so is what pandas does with a timestamp field that is neither a string
    nor [None];
  - timestamps have the nanosecond resolution of pandas 2, and a second
    of 60 or 61 is carried into the next minute;
  - [to_datetime] reads the strings [now] and [today] as the time of the
    clock, whatever the format is, and an offset of 24 hours or more does
    not parse;
  - the folder is written as [pathlib] writes it, so that the path of a
    file is the folder, the separator and the name;
  - [subprocess.run] returns, and the writers of the plot and of the
    spreadsheet succeed: they are events of the log. *)

From Stdlib Require Import ZArith List String Ascii Bool Lia SpecFloat.
From Stdlib Require Import Permutation Sorted.
Import ListNotations.
Set Warnings "-register-all".
Open Scope string_scope.
Open Scope Z_scope.

(* ================================================================= *)
(** ** Python floats *)

Module PyFloat.

(** Python's [float] is an IEEE 754 binary64 number. *)
Definition prec : Z := 53.
Definition emax : Z := 1024.
Definition float : Type := spec_float.

Definition is_nan (x : float) : bool :=
  match x with S754_nan => true | _ => false end.

Definition is_finite (x : float) : bool :=
  match x with S754_zero _ | S754_finite _ _ _ => true | _ => false end.

(** [n / d], rounded once, to nearest even: the correctly rounded value
    of a ratio of two integers. *)
Definition of_ratio (s : bool) (n d : positive) : float :=
  SFdiv prec emax (S754_finite s n 0) (S754_finite false d 0).

(** The float nearest to the integer [z]; an infinity when [z] is
    beyond the range of binary64. *)
Definition of_Z (z : Z) : float := binary_normalize prec emax z 0 false.

(** [float(text)] for the decimal text [m]e[e] with sign [s] ([0 <= m]):
    the float nearest to its value. *)
Definition of_decimal (s : bool) (m e : Z) : float :=
  match m, e with
  | Zpos p, Zneg k => of_ratio s p (Pos.pow 10 k)
  | Zpos p, _ => of_Z ((if s then -1 else 1) * (m * 10 ^ e))
  | _, _ => S754_zero s
  end.

Definition sub : float -> float -> float := SFsub prec emax.

(** [n / d] for [0 <= n] and [0 < d], rounded half to even. *)
Definition div_half_even (n d : Z) : Z :=
  let q := n / d in
  match 2 * (n mod d) ?= d with
  | Lt => q
  | Gt => q + 1
  | Eq => if Z.even q then q else q + 1
  end.

(** [k * m * 2^e] rounded half to even to an integer. *)
Definition scaled_half_even (k : Z) (m : positive) (e : Z) : Z :=
  match e with
  | Zneg p => div_half_even (k * Zpos m) (2 ^ Zpos p)
  | _ => k * Zpos m * 2 ^ e
  end.

(** [round(x, 2)] on a float (CPython's [double_round]): the exact value
    of [x] is rounded half to even to two decimals, and the float nearest
    to that decimal is returned. NaN and the infinities round to
    themselves; the sign of [x] is kept when the result is zero. *)
Definition round2 (x : float) : float :=
  match x with
  | S754_finite s m e =>
      match scaled_half_even 100 m e with
      | Zpos n => of_ratio s n 100
      | _ => S754_zero s
      end
  | _ => x
  end.

End PyFloat.

Definition float : Type := PyFloat.float.

(* ================================================================= *)
(** ** JSON values *)

Module Json.

(** What [json.loads] returns: [None], [bool], [int], [float], [str],
    [list] and [dict] (with [str] keys). *)
Inductive json : Type :=
| JNone
| JBool (b : bool)
| JInt (z : Z)
| JFloat (f : float)
| JStr (s : string)
| JList (l : list json)
| JDict (d : list (string * json)).

(** [d.get(key)] on the binding list of a [dict]. *)
Fixpoint assoc (key : string) (d : list (string * json)) : option json :=
  match d with
  | [] => None
  | (k, v) :: d' => if String.eqb k key then Some v else assoc key d'
  end.

(** [v[0]]: [Some] when the subscript succeeds, [None] when it raises
    ([IndexError] on an empty list or string, [KeyError] on a dict, whose
    keys are strings, [TypeError] on [None], [bool], [int], [float]). *)
Definition subscript0 (v : json) : option json :=
  match v with
  | JList (x :: _) => Some x
  | JStr (String c _) => Some (JStr (String c EmptyString))
  | _ => None
  end.

End Json.

Export Json.

(* ================================================================= *)
(** ** Exceptions, events and the monad of the script *)

Module Py.

Inductive exn : Type :=
| FileNotFoundError (msg : string)
| AttributeError
| OverflowError
| TypeError
| KeyError (keys : list string).

Inductive result (A : Type) : Type :=
| Ok (a : A)
| Raise (e : exn).
Arguments Ok {A} a.
Arguments Raise {A} e.

End Py.

Export Py.

(* ================================================================= *)
(** ** The regular expressions behind [strptime] *)

Module Re.

(** The fragment of Python's [re] that the [strptime] patterns use. *)
Inductive regex : Type :=
| Chr (p : ascii -> bool)
| Seq (r1 r2 : regex)
| Alt (r1 r2 : regex)
| Opt (r : regex)
| Plus (p : ascii -> bool)
| Group (name : string) (r : regex).

(** A match: the text matched, the named groups, and the text left. *)
Definition found : Type := string * list (string * string) * string.

(** All ways [p+] matches a prefix of [s], longest first. *)
Fixpoint span_plus (p : ascii -> bool) (s : string) : list (string * string) :=
  match s with
  | String c s' =>
      if p c
      then (map (fun '(t, r) => (String c t, r)) (span_plus p s') ++ [(String c "", s')])%list
      else []
  | EmptyString => []
  end.

(** All matches of [r] at the start of [s], in the order in which a
    backtracking matcher tries them: [re.match] returns the first. *)
Fixpoint rmatch (r : regex) (s : string) : list found :=
  match r with
  | Chr p =>
      match s with
      | String c s' => if p c then [(String c "", [], s')] else []
      | EmptyString => []
      end
  | Seq r1 r2 =>
      flat_map (fun '(t1, g1, s1) =>
                  map (fun '(t2, g2, s2) => (t1 ++ t2, (g1 ++ g2)%list, s2)) (rmatch r2 s1))
               (rmatch r1 s)
  | Alt r1 r2 => (rmatch r1 s ++ rmatch r2 s)%list
  | Opt r1 => (rmatch r1 s ++ [("", [], s)])%list
  | Plus p => map (fun '(t, s') => (t, [], s')) (span_plus p s)
  | Group name r1 => map (fun '(t, g, s') => (t, (name, t) :: g, s')) (rmatch r1 s)
  end.

Definition lit (c : ascii) : regex := Chr (Ascii.eqb c).

Definition between (a b : ascii) : regex :=
  Chr (fun c => (nat_of_ascii a <=? nat_of_ascii c)%nat && (nat_of_ascii c <=? nat_of_ascii b)%nat).

(** [\d], on ASCII text. *)
Definition digit : regex := between "0" "9".

(** [\s], on ASCII text. *)
Definition is_space (c : ascii) : bool :=
  let n := nat_of_ascii c in
  ((9 <=? n)%nat && (n <=? 13)%nat) || (n =? 32)%nat || ((28 <=? n)%nat && (n <=? 31)%nat).

(** [r{1,n+1}], greedy. *)
Fixpoint upto (n : nat) (r : regex) : regex :=
  match n with
  | O => r
  | S n' => Seq r (Opt (upto n' r))
  end.

Fixpoint group (name : string) (g : list (string * string)) : string :=
  match g with
  | [] => ""
  | (k, v) :: g' => if String.eqb k name then v else group name g'
  end.

End Re.

(* ================================================================= *)
(** ** pandas: timestamps and [to_datetime] *)

Module Pandas.

Import Re.

(** [pandas.Timestamp]: an instant, as nanoseconds since the epoch in UTC,
    and a fixed offset from UTC in minutes for a timezone-aware value. *)
Record Timestamp : Type := mkTimestamp {
  value : Z;
  tz : option Z
}.

Definition ns_per_minute : Z := 60 * 1000000000.
Definition ns_per_day : Z := 86400 * 1000000000.

(** The nanoseconds since the epoch that the clock of [ts] shows in the
    zone of [ts]. *)
Definition wall_ns (ts : Timestamp) : Z :=
  match tz ts with
  | Some off => value ts + off * ns_per_minute
  | None => value ts
  end.

(** The clock fields of a timestamp. *)
Record fields : Type := mkFields {
  year : Z; month : Z; day : Z;
  hour : Z; minute : Z; second : Z;
  nanosecond : Z
}.

(** The proleptic Gregorian calendar repeats every 400 years, an era of
    146097 days that starts on the first of March. *)

(** The day of the era of a year of the era, a month and a day. *)
Definition doe_of_civil (yoe m d : Z) : Z :=
  yoe * 365 + yoe / 4 - yoe / 100
  + (153 * (if 2 <? m then m - 3 else m + 9) + 2) / 5 + d - 1.

(** The year of the era, the month and the day of a day of the era. *)
Definition civil_of_doe (doe : Z) : Z * Z * Z :=
  let yoe := (doe - doe / 1460 + doe / 36524 - doe / 146096) / 365 in
  let doy := doe - (365 * yoe + yoe / 4 - yoe / 100) in
  let mp := (5 * doy + 2) / 153 in
  (yoe, (if mp <? 10 then mp + 3 else mp - 9), doy - (153 * mp + 2) / 5 + 1).

(** Days since 1970-01-01 of a date. *)
Definition days_from_civil (y m d : Z) : Z :=
  let y' := y - (if m <=? 2 then 1 else 0) in
  let era := y' / 400 in
  era * 146097 + doe_of_civil (y' - era * 400) m d - 719468.

(** The date of a number of days since 1970-01-01. *)
Definition civil_from_days (z : Z) : Z * Z * Z :=
  let era := (z + 719468) / 146097 in
  let '(yoe, m, d) := civil_of_doe (z + 719468 - era * 146097) in
  (yoe + era * 400 + (if m <=? 2 then 1 else 0), m, d).

Definition ns_of_fields (f : fields) : Z :=
  days_from_civil (year f) (month f) (day f) * ns_per_day
  + (hour f * 3600 + minute f * 60 + second f) * 1000000000
  + nanosecond f.

Definition fields_of_ns (v : Z) : fields :=
  let '(y, m, d) := civil_from_days (v / ns_per_day) in
  let r := v mod ns_per_day in
  let secs := r / 1000000000 in
  mkFields y m d (secs / 3600) (secs mod 3600 / 60) (secs mod 60) (r mod 1000000000).

(** The fields a timestamp shows: [ts.year], ..., [ts.nanosecond]. *)
Definition clock (ts : Timestamp) : fields := fields_of_ns (wall_ns ts).

(** [Timestamp.tz_convert(None)]: the same instant with the zone removed,
    so that the clock shows UTC. A timezone-naive timestamp raises. *)
Definition tz_convert_None (ts : Timestamp) : result Timestamp :=
  match tz ts with
  | Some _ => Ok (mkTimestamp (value ts) None)
  | None => Raise TypeError
  end.

(** *** [strptime] *)

(** The regular expression of one directive (pandas' [TimeRE]). *)
Definition directive (c : ascii) : option regex :=
  if Ascii.eqb c "Y" then Some (Group "Y" (Seq digit (Seq digit (Seq digit digit))))
  else if Ascii.eqb c "m" then
    Some (Group "m" (Alt (Seq (lit "1") (between "0" "2"))
                    (Alt (Seq (lit "0") (between "1" "9")) (between "1" "9"))))
  else if Ascii.eqb c "d" then
    Some (Group "d" (Alt (Seq (lit "3") (between "0" "1"))
                    (Alt (Seq (between "1" "2") digit)
                    (Alt (Seq (lit "0") (between "1" "9"))
                    (Alt (between "1" "9") (Seq (lit " ") (between "1" "9")))))))
  else if Ascii.eqb c "H" then
    Some (Group "H" (Alt (Seq (lit "2") (between "0" "3"))
                    (Alt (Seq (between "0" "1") digit) digit)))
  else if Ascii.eqb c "M" then
    Some (Group "M" (Alt (Seq (between "0" "5") digit) digit))
  else if Ascii.eqb c "S" then
    Some (Group "S" (Alt (Seq (lit "6") (between "0" "1"))
                    (Alt (Seq (between "0" "5") digit) digit)))
  else if Ascii.eqb c "f" then Some (Group "f" (upto 8 digit))
  else if Ascii.eqb c "z" then
    Some (Group "z"
      (Alt (Seq (Alt (lit "+") (lit "-"))
           (Seq digit (Seq digit (Seq (Opt (lit ":"))
           (Seq (between "0" "5") (Seq digit
           (Opt (Seq (Opt (lit ":")) (Seq (between "0" "5") (Seq digit
                (Opt (Seq (lit ".") (upto 5 digit)))))))))))))
           (lit "Z")))
  else None.

(** The regular expression of a format: a directive after [%], [\s+] for
    a run of white space, the character itself otherwise. [None] for a
    directive outside the ones above. *)
Fixpoint pattern (fmt : string) : option (list regex) :=
  match fmt with
  | EmptyString => Some []
  | String "%"%char (String c fmt') =>
      match directive c, pattern fmt' with
      | Some r, Some rs => Some (r :: rs)
      | _, _ => None
      end
  | String c fmt' =>
      match pattern fmt' with
      | Some rs =>
          if is_space c
          then match fmt' with
               | String c' _ => if is_space c' then Some rs else Some (Plus is_space :: rs)
               | EmptyString => Some (Plus is_space :: rs)
               end
          else Some (lit c :: rs)
      | None => None
      end
  end.

Fixpoint sequence (rs : list regex) : option regex :=
  match rs with
  | [] => None
  | [r] => Some r
  | r :: rs' => option_map (Seq r) (sequence rs')
  end.

(** [int(s)] for a string of ASCII digits, white space around them
    ignored. *)
Fixpoint int_digits (acc : Z) (s : string) : Z :=
  match s with
  | EmptyString => acc
  | String c s' =>
      let n := Z.of_nat (nat_of_ascii c) in
      if (48 <=? n) && (n <=? 57) then int_digits (acc * 10 + (n - 48)) s'
      else int_digits acc s'
  end.

Definition int (s : string) : Z := int_digits 0 s.

Fixpoint zeros (n : nat) : string :=
  match n with O => "" | S n' => String "0"%char (zeros n') end.

(** pandas' [parse_timezone_directive]: the offset in minutes of the text
    matched by [%z]; [None] when it raises (colons used inconsistently, or
    an offset of 24 hours or more, which [datetime.timezone] refuses). *)
Definition parse_timezone_directive (z : string) : option Z :=
  if String.eqb z "Z" then Some 0
  else
    let strip1 := match get 3 z with
                  | Some ":"%char => Some (substring 0 3 z ++ substring 4 (length z - 4) z)
                  | _ => None
                  end in
    let z' := match strip1 with
              | Some z1 =>
                  if (5 <? length z1)%nat
                  then match get 5 z1 with
                       | Some ":"%char => Some (substring 0 5 z1 ++ substring 6 (length z1 - 6) z1)
                       | _ => None
                       end
                  else Some z1
              | None =>
                  match get 5 z with
                  | Some ":"%char => None
                  | _ => Some z
                  end
              end in
    match z' with
    | None => None
    | Some z2 =>
        let hours := int (substring 1 2 z2) in
        let minutes := int (substring 3 2 z2) in
        let seconds := int (substring 5 2 z2) in
        let total_minutes := hours * 60 + minutes + seconds / 60 in
        if total_minutes <? 24 * 60
        then Some (if prefix "-" z2 then - total_minutes else total_minutes)
        else None
    end.

Definition is_leap (y : Z) : bool :=
  (y mod 4 =? 0) && (negb (y mod 100 =? 0) || (y mod 400 =? 0)).

Definition days_in_month (y m : Z) : Z :=
  if m =? 2 then (if is_leap y then 29 else 28)
  else if (m =? 4) || (m =? 6) || (m =? 9) || (m =? 11) then 30 else 31.

(** [datetime.date(y, m, d)] does not raise. *)
Definition valid_date (y m d : Z) : bool :=
  (1 <=? y) && (y <=? 9999) && (1 <=? m) && (m <=? 12) && (1 <=? d) && (d <=? days_in_month y m).

(** The range of a nanosecond timestamp: a signed 64-bit count, its
    least value being [NaT]. *)
Definition in_bounds (v : Z) : bool := (- 2 ^ 63 <? v) && (v <? 2 ^ 63).

(** [strptime] on one string with [exact=True]: [None] where pandas raises
    (no match, text left over, a date that does not exist, an offset it
    cannot read, a value out of bounds) or the format is not covered. *)
Definition strptime (fmt : string) (val : string) : option Timestamp :=
  match option_map sequence (pattern fmt) with
  | Some (Some r) =>
      match rmatch r val with
      | (_, g, EmptyString) :: _ =>
          let f := group "f" g in
          let fs := mkFields (int (group "Y" g)) (int (group "m" g)) (int (group "d" g))
                             (int (group "H" g)) (int (group "M" g)) (int (group "S" g))
                             (int (f ++ zeros (9 - length f))) in
          match parse_timezone_directive (group "z" g) with
          | Some off =>
              let local := ns_of_fields fs in
              let utc := local - off * ns_per_minute in
              if valid_date (year fs) (month fs) (day fs) && in_bounds local && in_bounds utc
              then Some (mkTimestamp utc (Some off))
              else None
          | None => None
          end
      | _ => None
      end
  | _ => None
  end.

(** The two words that [to_datetime] reads before it looks at the format:
    [now] and [today] give the time of the clock of the machine, as a
    timestamp without a zone. *)
Definition today_now (val : string) : bool :=
  String.eqb val "now" || String.eqb val "today".

End Pandas.

(* ================================================================= *)
(** ** A decoder for JSON text *)

Module JsonText.

(** [json.loads] is a parameter of the development. The decoder below
    covers a fragment of JSON (ASCII text; [null], [true], [false],
    numbers, strings with the one-letter escapes, arrays, objects) and
    stands for it where a property is evaluated on a concrete text. *)

(** The double quote. *)
Definition quote : ascii := ascii_of_nat 34.

(** A text written with single quotes, read with double quotes. *)
Fixpoint dq (s : string) : string :=
  match s with
  | String c s' => String (if Ascii.eqb c "'" then quote else c) (dq s')
  | EmptyString => EmptyString
  end.

Definition is_ws (c : ascii) : bool :=
  let n := nat_of_ascii c in
  (n =? 32)%nat || (n =? 9)%nat || (n =? 10)%nat || (n =? 13)%nat.

Fixpoint skip_ws (s : string) : string :=
  match s with
  | String c s' => if is_ws c then skip_ws s' else s
  | EmptyString => s
  end.

Definition is_digit (c : ascii) : bool :=
  let n := nat_of_ascii c in (48 <=? n)%nat && (n <=? 57)%nat.

(** The longest prefix of digits, and the rest. *)
Fixpoint digits (s : string) : string * string :=
  match s with
  | String c s' =>
      if is_digit c then let '(d, r) := digits s' in (String c d, r) else ("", s)
  | EmptyString => ("", "")
  end.

Fixpoint digits_value (acc : Z) (s : string) : Z :=
  match s with
  | String c s' => digits_value (acc * 10 + (Z.of_nat (nat_of_ascii c) - 48)) s'
  | EmptyString => acc
  end.

Definition drop_prefix (p s : string) : option string :=
  if prefix p s then Some (substring (length p) (length s - length p) s) else None.

(** An optional sign: whether it is [-], and the rest. *)
Definition sign (plus : bool) (s : string) : bool * string :=
  match s with
  | String c s' =>
      if Ascii.eqb c "-" then (true, s')
      else if plus && Ascii.eqb c "+" then (false, s')
      else (false, s)
  | EmptyString => (false, s)
  end.

(** An optional fraction: the digits, the rest, and whether the text is well formed. *)
Definition fraction (s : string) : string * string * bool :=
  match s with
  | String c s' =>
      if Ascii.eqb c "."
      then let '(d, r) := digits s' in (d, r, negb (String.eqb d ""))
      else ("", s, true)
  | EmptyString => ("", s, true)
  end.

(** An optional exponent: the exponent when there is one, the rest, and
    whether the text is well formed. *)
Definition exponent (s : string) : option Z * string * bool :=
  match s with
  | String c s' =>
      if Ascii.eqb c "e" || Ascii.eqb c "E"
      then
        let '(neg, s'') := sign true s' in
        let '(d, r) := digits s'' in
        (Some (if neg then - digits_value 0 d else digits_value 0 d), r,
         negb (String.eqb d ""))
      else (None, s, true)
  | EmptyString => (None, s, true)
  end.

(** A JSON number (optional minus, integer part without leading zero,
    optional fraction, optional exponent): an [int] without fraction and
    exponent, a [float] otherwise. *)
Definition number (s : string) : option (json * string) :=
  let '(neg, s0) := sign false s in
  let '(ip, s1) := digits s0 in
  let '(fp, s2, ok_frac) := fraction s1 in
  let '(ex, s3, ok_exp) := exponent s2 in
  let leading_zero := prefix "0" ip && negb (String.eqb ip "0") in
  if String.eqb ip "" || leading_zero || negb ok_frac || negb ok_exp then None
  else
    match fp, ex with
    | EmptyString, None => Some (JInt ((if neg then -1 else 1) * digits_value 0 ip), s3)
    | _, _ =>
        let e := match ex with Some e => e | None => 0 end in
        Some (JFloat (PyFloat.of_decimal neg (digits_value 0 (ip ++ fp))
                                         (e - Z.of_nat (length fp))), s3)
    end.

Definition unescape (e : ascii) : option ascii :=
  if Ascii.eqb e quote || Ascii.eqb e "\" || Ascii.eqb e "/" then Some e
  else if Ascii.eqb e "n" then Some (ascii_of_nat 10)
  else if Ascii.eqb e "t" then Some (ascii_of_nat 9)
  else if Ascii.eqb e "r" then Some (ascii_of_nat 13)
  else if Ascii.eqb e "b" then Some (ascii_of_nat 8)
  else if Ascii.eqb e "f" then Some (ascii_of_nat 12)
  else None.

(** The text of a string after its opening quote, and the rest. *)
Fixpoint string_body (s : string) : option (string * string) :=
  match s with
  | EmptyString => None
  | String c s' =>
      if Ascii.eqb c quote then Some ("", s')
      else if Ascii.eqb c "\" then
        match s' with
        | String e s'' =>
            match unescape e, string_body s'' with
            | Some u, Some (t, r) => Some (String u t, r)
            | _, _ => None
            end
        | EmptyString => None
        end
      else if (nat_of_ascii c <? 32)%nat then None
      else match string_body s' with
           | Some (t, r) => Some (String c t, r)
           | None => None
           end
  end.

(** A later binding of a key replaces the earlier one, as in a [dict]. *)
Fixpoint dict_set (k : string) (v : json) (d : list (string * json)) : list (string * json) :=
  match d with
  | [] => [(k, v)]
  | (k', v') :: d' => if String.eqb k' k then (k', v) :: d' else (k', v') :: dict_set k v d'
  end.

(** The next character that is not white space, and the text after it. *)
Definition token (s : string) : option (ascii * string) :=
  match skip_ws s with
  | String c s' => Some (c, s')
  | EmptyString => None
  end.

Fixpoint value (fuel : nat) (s : string) {struct fuel} : option (json * string) :=
  match fuel with
  | O => None
  | S n =>
      match token s with
      | None => None
      | Some (c, s1) =>
          if Ascii.eqb c "[" then
            match token s1 with
            | Some ("]"%char, s2) => Some (JList [], s2)
            | _ =>
                (fix items (k : nat) (s : string) (acc : list json) {struct k} :=
                   match k with
                   | O => None
                   | S k' =>
                       match value n s with
                       | Some (v, s') =>
                           match token s' with
                           | Some (","%char, s'') => items k' s'' (acc ++ [v])%list
                           | Some ("]"%char, s'') => Some (JList (acc ++ [v])%list, s'')
                           | _ => None
                           end
                       | None => None
                       end
                   end) n s1 []
            end
          else if Ascii.eqb c "{" then
            match token s1 with
            | Some ("}"%char, s2) => Some (JDict [], s2)
            | _ =>
                (fix members (k : nat) (s : string) (acc : list (string * json)) {struct k} :=
                   match k with
                   | O => None
                   | S k' =>
                       match token s with
                       | Some (c0, s') =>
                           match (if Ascii.eqb c0 quote then string_body s' else None) with
                           | Some (key, s'') =>
                               match token s'' with
                               | Some (":"%char, s3) =>
                                   match value n s3 with
                                   | Some (v, s4) =>
                                       match token s4 with
                                       | Some (","%char, s5) => members k' s5 (dict_set key v acc)
                                       | Some ("}"%char, s5) => Some (JDict (dict_set key v acc), s5)
                                       | _ => None
                                       end
                                   | None => None
                                   end
                               | _ => None
                               end
                           | None => None
                           end
                       | None => None
                       end
                   end) n s1 []
            end
          else if Ascii.eqb c quote then
            match string_body s1 with
            | Some (t, r) => Some (JStr t, r)
            | None => None
            end
          else
            let s0 := String c s1 in
            match drop_prefix "null" s0, drop_prefix "true" s0, drop_prefix "false" s0 with
            | Some r, _, _ => Some (JNone, r)
            | _, Some r, _ => Some (JBool true, r)
            | _, _, Some r => Some (JBool false, r)
            | _, _, _ => number s0
            end
      end
  end.

(** The whole text is one value: [None] stands for [JSONDecodeError]. *)
Definition loads (s : string) : option json :=
  match value (S (length s)) s with
  | Some (v, r) => match skip_ws r with EmptyString => Some v | _ => None end
  | None => None
  end.

End JsonText.

(* ================================================================= *)
(** ** pathlib: [Path.glob] on one directory *)

Module Pathlib.

(** [pathlib] matches names with the case rules of the platform. *)
Inductive platform : Type := Posix | Windows.

Definition lower (c : ascii) : ascii :=
  let n := nat_of_ascii c in
  if (65 <=? n)%nat && (n <=? 90)%nat then ascii_of_nat (n + 32) else c.

Fixpoint lowercase (s : string) : string :=
  match s with
  | String c s' => String (lower c) (lowercase s')
  | EmptyString => EmptyString
  end.

(** The text a name is matched on: itself where names are case
    sensitive, its lower case where they are not. *)
Definition casefold (os : platform) (s : string) : string :=
  match os with
  | Posix => s
  | Windows => lowercase s
  end.

(** [k] holds of [n] or of one of the texts left after dropping
    characters from the front of [n]: what [*] followed by [k] matches. *)
Fixpoint star (k : string -> bool) (n : string) : bool :=
  k n || match n with
         | String _ n' => star k n'
         | EmptyString => false
         end.

(** [fnmatch] for a pattern of plain characters and [*]. *)
Fixpoint fnmatch (pat name : string) {struct pat} : bool :=
  match pat with
  | EmptyString => match name with EmptyString => true | _ => false end
  | String c pat' =>
      if Ascii.eqb c "*"
      then star (fnmatch pat') name
      else match name with
           | String d name' => Ascii.eqb c d && fnmatch pat' name'
           | EmptyString => false
           end
  end.

(** A path inside a directory. *)
Record Path : Type := mkPath {
  parent : string;
  name : string
}.

Definition sep (os : platform) : string :=
  match os with Posix => "/" | Windows => "\" end.

(** [str(path)], for a folder written as [pathlib] writes it: without a
    trailing or a repeated separator and without a [.] component, which
    [pathlib] removes. *)
Definition str (os : platform) (p : Path) : string :=
  parent p ++ sep os ++ name p.

(** [folder.glob(pattern)] for a pattern of one component: the entries of
    the directory the pattern matches, in the order of the directory. Hidden
    entries and entries of any kind are matched alike. *)
Definition glob (os : platform) (folder : string) (entries : list string)
  (pattern : string) : list Path :=
  map (mkPath folder)
      (filter (fun n => fnmatch (casefold os pattern) (casefold os n)) entries).

End Pathlib.

Export Pathlib.
Export Pandas.

(* ================================================================= *)
(** ** The records of the script and the data frame made of them *)

(** The dictionary [extract_metadata] appends for one image. [DateTime] is
    [None] for the nulls of pandas ([None] and [NaT]) and a timezone-naive
    timestamp otherwise; a temperature is [None] for Python's [None]. *)
Record ImageRecord : Type := mkRecord {
  FileName : string;
  DateTime : option Timestamp;
  FocalLength : json;
  TempMax : option float;
  TempMin : option float
}.

(** The value of a cell of the frame. *)
Inductive cell : Type :=
| CStr (s : string)
| CTime (t : option Timestamp)
| CJson (v : json)
| CFloat (x : option float).

(** The items of the dictionary, in the order the script writes them. *)
Definition items (r : ImageRecord) : list (string * cell) :=
  [ ("FileName", CStr (FileName r));
    ("DateTime", CTime (DateTime r));
    ("FocalLength", CJson (FocalLength r));
    ("TempMax", CFloat (TempMax r));
    ("TempMin", CFloat (TempMin r)) ].

Fixpoint getitem (col : string) (kv : list (string * cell)) : option cell :=
  match kv with
  | [] => None
  | (k, v) :: kv' => if String.eqb k col then Some v else getitem col kv'
  end.

(** [pd.isna] on a cell: [None], [NaT] and the float NaN are null. *)
Definition isna (c : cell) : bool :=
  match c with
  | CStr _ => false
  | CTime None => true
  | CTime (Some _) => false
  | CJson JNone => true
  | CJson (JFloat f) => PyFloat.is_nan f
  | CJson _ => false
  | CFloat None => true
  | CFloat (Some f) => PyFloat.is_nan f
  end.

(** A frame built from a list of dictionaries: its columns are the keys of
    the dictionaries, and there are none when the list is empty. *)
Record DataFrame : Type := mkFrame {
  columns : list string;
  rows : list ImageRecord
}.

Definition DataFrame_of (data : list ImageRecord) : DataFrame :=
  match data with
  | [] => mkFrame [] []
  | r :: _ => mkFrame (map fst (items r)) data
  end.

(** [df.empty]: one of the axes has length zero. *)
Definition empty (df : DataFrame) : bool :=
  match columns df, rows df with
  | [], _ | _, [] => true
  | _, _ => false
  end.

Definition has_column (df : DataFrame) (col : string) : bool :=
  existsb (String.eqb col) (columns df).

(** The cell of row [r] in column [col] is there and is not null. *)
Definition notna_at (r : ImageRecord) (col : string) : bool :=
  match getitem col (items r) with
  | Some c => negb (isna c)
  | None => false
  end.

(** [df.dropna(subset=...)]: a label that is not a column raises
    [KeyError]; otherwise the rows with a null in a column of [subset] go. *)
Definition dropna (subset : list string) (df : DataFrame) : result DataFrame :=
  match filter (fun c => negb (has_column df c)) subset with
  | [] => Ok (mkFrame (columns df)
                      (filter (fun r => forallb (notna_at r) subset) (rows df)))
  | missing => Raise (KeyError missing)
  end.

(** The order of [sort_values] on a column of timestamps: ascending in the
    instant, nulls last. *)
Definition time_leb (a b : option Timestamp) : bool :=
  match a, b with
  | Some x, Some y => value x <=? value y
  | Some _, None => true
  | None, Some _ => false
  | None, None => true
  end.

Fixpoint insort (r : ImageRecord) (l : list ImageRecord) : list ImageRecord :=
  match l with
  | [] => [r]
  | r' :: l' =>
      if time_leb (DateTime r) (DateTime r') then r :: l else r' :: insort r l'
  end.

Fixpoint sort_rows (l : list ImageRecord) : list ImageRecord :=
  match l with
  | [] => []
  | r :: l' => insort r (sort_rows l')
  end.

(** [df.sort_values("DateTime")]. pandas does not fix the order of rows
    with equal keys; the insertion sort here is one of the orders it may
    give, and no property below depends on which. *)
Definition sort_values_DateTime (df : DataFrame) : result DataFrame :=
  if has_column df "DateTime"
  then Ok (mkFrame (columns df) (sort_rows (rows df)))
  else Raise (KeyError ["DateTime"]).

(** [df[col]]. *)
Definition series (df : DataFrame) (col : string) : list (option cell) :=
  map (fun r => getitem col (items r)) (rows df).

(* ================================================================= *)
(** ** What the script does to the world, and in what world it runs *)

Inductive event : Type :=
| Print (msg : string)
| SubprocessRun (argv : list string)
| PltPlot (x y : list (option cell)) (label color : string)
| PltSavefig (fname : string)
| PltShow
| ToExcel (fname : string) (header : list string) (body : list (list cell)).

(** A computation: the events it caused, in order, and its result or the
    exception that ended it. *)
Definition M (A : Type) : Type := list event * result A.

Definition ret {A : Type} (a : A) : M A := ([], Ok a).

Definition raise {A : Type} (e : exn) : M A := ([], Raise e).

Definition emit (ev : event) : M unit := ([ev], Ok tt).

Definition lift {A : Type} (r : result A) : M A := ([], r).

Definition bind {A B : Type} (m : M A) (k : A -> M B) : M B :=
  match m with
  | (l, Ok a) => let '(l', r) := k a in ((l ++ l')%list, r)
  | (l, Raise e) => (l, Raise e)
  end.

Notation "x <- m ;; k" := (bind m (fun x => k))
  (at level 61, m at next level, right associativity).
Notation "m ;;; k" := (bind m (fun _ => k))
  (at level 61, right associativity).

Definition events {A : Type} (m : M A) : list event := fst m.
Definition outcome {A : Type} (m : M A) : result A := snd m.

(** The state of a path of the file system. *)
Inductive fs_node : Type :=
| Missing
| NotDir
| Dir (entries : list string).

(** [subprocess.CompletedProcess], with the output as text. *)
Record CompletedProcess : Type := mkProcess {
  stdout : string;
  returncode : Z
}.

(** What the script reads from its environment. *)
Record World : Type := mkWorld {
  os : platform;
  which : string -> option string;
  fs : string -> fs_node;
  run : list string -> CompletedProcess
}.

(* ================================================================= *)
(** ** The script *)

(** *** [kelvin_to_celsius] *)

(** [isinstance(temp, (int, float))]; [bool] is a subclass of [int]. *)
Definition isinstance_int_float (temp : json) : bool :=
  match temp with
  | JBool _ | JInt _ | JFloat _ => true
  | _ => false
  end.

(** [float(z)] for an [int]: [OverflowError] when [z] is too large. *)
Definition float_of_int (z : Z) : result float :=
  let f := PyFloat.of_Z z in
  if PyFloat.is_finite f then Ok f else Raise OverflowError.

(** The literal [273.15]. *)
Definition f273_15 : float := PyFloat.of_decimal false 27315 (-2).

(** [temp - y] for a float [y]: an [int] or [bool] on the left is
    converted to [float] first; other values do not subtract. *)
Definition sub_float (temp : json) (y : float) : result float :=
  match temp with
  | JFloat x => Ok (PyFloat.sub x y)
  | JInt z =>
      match float_of_int z with
      | Ok x => Ok (PyFloat.sub x y)
      | Raise e => Raise e
      end
  | JBool b => Ok (PyFloat.sub (PyFloat.of_Z (if b then 1 else 0)) y)
  | _ => Raise TypeError
  end.

Definition kelvin_to_celsius (temp : json) : result (option float) :=
  if isinstance_int_float temp
  then match sub_float temp f273_15 with
       | Ok d => Ok (Some (PyFloat.round2 d))
       | Raise e => Raise e
       end
  else Ok None.

(** *** [extract_metadata] *)

(** [metadata.get(key, default)]: only a [dict] has the method. *)
Definition get (metadata : json) (key : string) (default : json) : result json :=
  match metadata with
  | JDict d => Ok (match assoc key d with Some v => v | None => default end)
  | _ => Raise AttributeError
  end.

Definition exiftool_argv (os : platform) (photo : Path) : list string :=
  [ "exiftool"; "-json"; "-DateTimeOriginal"; "-FocalLength";
    "-ImageTemperatureMax"; "-ImageTemperatureMin"; str os photo ].

Definition datetime_format : string := "%Y:%m:%d %H:%M:%S.%f%z".

(** The files found by the three [glob] calls, in the order of the
    script. *)
Definition photos_of (os : platform) (folder_path : string) (entries : list string)
  : list Path :=
  (glob os folder_path entries "*.jpg"
   ++ glob os folder_path entries "*.jpeg"
   ++ glob os folder_path entries "*.png")%list.

Section Script.

(** [json.loads]: the decoded value, or [None] when it raises. *)
Variable json_loads : string -> option json.

(** Lines 60 to 62 of the script for an argument that is neither a string
    nor [None] (a number, a [bool], a [list], a [dict]): what pandas does
    with these is not fixed by the script. *)
Variable datetime_of_other : json -> result (option Timestamp).

(** [pd.to_datetime(arg, format=..., errors="coerce")] followed by
    [tz_convert(None)] on a value that is not null. For [now] and [today]
    the value is the time of the clock, which has no zone whatever the
    time is, and [tz_convert] raises on it. *)
Definition to_naive_datetime (arg : json) : result (option Timestamp) :=
  match arg with
  | JNone => Ok None
  | JStr s =>
      if today_now s then Raise TypeError else
      match strptime datetime_format s with
      | Some date_time =>
          match tz_convert_None date_time with
          | Ok t => Ok (Some t)
          | Raise e => Raise e
          end
      | None => Ok None
      end
  | _ => datetime_of_other arg
  end.

(** The body of the loop after the [try]: the record of one image. *)
Definition record_of (photo : Path) (metadata : json) : result ImageRecord :=
  match get metadata "DateTimeOriginal" JNone with
  | Raise e => Raise e
  | Ok dto =>
  match to_naive_datetime dto with
  | Raise e => Raise e
  | Ok date_time =>
  match get metadata "FocalLength" (JStr "N/A") with
  | Raise e => Raise e
  | Ok focal =>
  match get metadata "ImageTemperatureMax" JNone with
  | Raise e => Raise e
  | Ok kmax =>
  match kelvin_to_celsius kmax with
  | Raise e => Raise e
  | Ok tmax =>
  match get metadata "ImageTemperatureMin" JNone with
  | Raise e => Raise e
  | Ok kmin =>
  match kelvin_to_celsius kmin with
  | Raise e => Raise e
  | Ok tmin => Ok (mkRecord (name photo) date_time focal tmax tmin)
  end end end end end end end.

(** [json.loads(result.stdout)[0]] inside the [try]: [None] when anything
    raises. *)
Definition first_object (text : string) : option json :=
  match json_loads text with
  | Some v => subscript0 v
  | None => None
  end.

(** One turn of the [for] loop on [photo], with [data] the list built so
    far: the tool is run; when its output does not decode to something with
    a first element the turn ends ([continue]); otherwise the record is
    built and appended. *)
Definition loop_body (w : World) (photo : Path) (data : list ImageRecord)
  : M (list ImageRecord) :=
  emit (SubprocessRun (exiftool_argv (os w) photo)) ;;;
  match first_object (stdout (run w (exiftool_argv (os w) photo))) with
  | None => ret data
  | Some metadata =>
      r <- lift (record_of photo metadata) ;;
      ret (data ++ [r])%list
  end.

Fixpoint extract_loop (w : World) (photos : list Path) (data : list ImageRecord)
  : M (list ImageRecord) :=
  match photos with
  | [] => ret data
  | photo :: photos' =>
      data' <- loop_body w photo data ;;
      extract_loop w photos' data'
  end.

Definition extract_metadata (w : World) (folder_path : string) : M (list ImageRecord) :=
  match which w "exiftool" with
  | None => raise (FileNotFoundError "ExifTool není dostupný v PATH.")
  | Some _ =>
      match fs w folder_path with
      | Dir entries =>
          let photos := photos_of (os w) folder_path entries in
          match photos with
          | [] => emit (Print "Ve složce nejsou žádné obrázky.") ;;; ret []
          | _ => extract_loop w photos []
          end
      | _ => raise (FileNotFoundError
                      ("Složka " ++ folder_path ++ " neexistuje nebo není adresář."))
      end
  end.

End Script.

(** *** [plot_temperatures] *)

Definition plot_temperatures (data : list ImageRecord) : M unit :=
  dropped <- lift (dropna ["DateTime"; "TempMax"; "TempMin"] (DataFrame_of data)) ;;
  df <- lift (sort_values_DateTime dropped) ;;
  if empty df
  then emit (Print "Žádná platná data pro vykreslení grafu.")
  else
    emit (PltPlot (series df "DateTime") (series df "TempMax") "maximální teplota" "red") ;;;
    emit (PltPlot (series df "DateTime") (series df "TempMin") "minimální teplota" "blue") ;;;
    emit (PltSavefig "temperature_plot.jpg") ;;;
    emit PltShow.

(** *** [save_to_excel] *)

(** [df.to_excel(output_file, index=False)]: a header row of the column
    labels, then one row of cells per row of the frame. *)
Definition to_excel (df : DataFrame) (output_file : string) : M unit :=
  emit (ToExcel output_file (columns df) (map (fun r => map snd (items r)) (rows df))).

Definition save_to_excel (data : list ImageRecord) (output_file : string) : M unit :=
  let df := DataFrame_of data in
  if empty df
  then emit (Print "Žádná data k uložení.")
  else
    to_excel df output_file ;;;
    emit (Print ("Data byla uložena do " ++ output_file)).

(** *** The entry point *)

Section Main.

Variable json_loads : string -> option json.
Variable datetime_of_other : json -> result (option Timestamp).

(** The [__main__] block, for a folder and an output file. *)
Definition main (w : World) (folder output_excel : string) : M unit :=
  metadata <- extract_metadata json_loads datetime_of_other w folder ;;
  match metadata with
  | [] => ret tt
  | _ => plot_temperatures metadata ;;; save_to_excel metadata output_excel
  end.

End Main.

(* ================================================================= *)
(** * The vocabulary of the properties *)

Import Re.

(** The float Python computes with for a number: the number itself, or
    the float of an [int] or [bool]. *)
Definition float_of_number (temp : json) : result float :=
  match temp with
  | JFloat x => Ok x
  | JInt z => float_of_int z
  | JBool b => Ok (PyFloat.of_Z (if b then 1 else 0))
  | _ => Raise TypeError
  end.

(** The messages of the two errors of [extract_metadata]. *)
Definition tool_missing_msg : string := "ExifTool není dostupný v PATH.".

Definition bad_folder_msg (folder_path : string) : string :=
  "Složka " ++ folder_path ++ " neexistuje nebo není adresář.".

(** No event of the log is a run of the external tool. *)
Definition no_subprocess (log : list event) : Prop :=
  forall argv, ~ In (SubprocessRun argv) log.

(** A world without the tool. *)
Definition world_no_tool : World :=
  mkWorld Posix (fun _ => None) (fun _ => Dir ["a.jpg"]) (fun _ => mkProcess "" 1).

(** The tool is there and the path is a regular file. *)
Definition world_file_not_dir : World :=
  mkWorld Posix (fun _ => Some "/usr/bin/exiftool") (fun _ => NotDir)
          (fun _ => mkProcess "" 1).

(** A folder with no name in one of the three extensions as written. *)
Definition world_no_images : World :=
  mkWorld Posix (fun _ => Some "/usr/bin/exiftool")
          (fun _ => Dir ["notes.txt"; "IMG_1.JPG"; "jpg"])
          (fun _ => mkProcess "" 1).


(** The value of [key] in the bindings [d], [default] when absent. *)
Definition lookup (d : list (string * json)) (key : string) (default : json) : json :=
  match assoc key d with Some v => v | None => default end.

(** A timestamp field that is absent, [None] or a string other than
    [now] and [today]. *)
Definition plain_time (v : json) : bool :=
  match v with
  | JNone => true
  | JStr s => negb (today_now s)
  | _ => false
  end.

(** A temperature field that is not an [int] beyond the range of a
    float. *)
Definition fits_float (v : json) : bool :=
  match v with JInt z => PyFloat.is_finite (PyFloat.of_Z z) | _ => true end.

(** An object the rest of the loop body handles without raising. *)
Definition tame (metadata : json) : bool :=
  match metadata with
  | JDict d =>
      plain_time (lookup d "DateTimeOriginal" JNone)
      && fits_float (lookup d "ImageTemperatureMax" JNone)
      && fits_float (lookup d "ImageTemperatureMin" JNone)
  | _ => false
  end.


(** Two images: valid output for the first ([300 K] and [295 K]), an
    error message that is not JSON for the second. *)
Definition world_two_images : World :=
  mkWorld Posix (fun _ => Some "/usr/bin/exiftool")
    (fun _ => Dir ["a.jpg"; "b.jpg"])
    (fun argv =>
       if String.eqb (last argv "") "photos/a.jpg"
       then mkProcess
              (JsonText.dq "[{'SourceFile': 'photos/a.jpg', 'DateTimeOriginal': '2024:01:01 10:00:00.000+00:00', 'FocalLength': '13.0 mm', 'ImageTemperatureMax': 300, 'ImageTemperatureMin': 295}]")
              0
       else mkProcess "Error: File format error" 1).

(** The output of the tool for one file is handled without an exception:
    it is skipped, or its first element is a tame object. *)
Definition handled (json_loads : string -> option json) (text : string) : bool :=
  match first_object json_loads text with
  | None => true
  | Some metadata => tame metadata
  end.

(** The tool prints a JSON array whose first element is not an object. *)
Definition world_null_element : World :=
  mkWorld Posix (fun _ => Some "/usr/bin/exiftool")
          (fun _ => Dir ["a.jpg"])
          (fun _ => mkProcess "[null]" 0).

(** The maximum temperature is an [int] of 401 digits. *)
Definition world_huge_temperature : World :=
  mkWorld Posix (fun _ => Some "/usr/bin/exiftool")
          (fun _ => Dir ["a.jpg"])
          (fun _ => mkProcess
                      (JsonText.dq ("[{'ImageTemperatureMax': 1" ++ zeros 400 ++ "}]")) 0).

(** The header and the rows of the report. *)
Definition report_columns : list string :=
  ["FileName"; "DateTime"; "FocalLength"; "TempMax"; "TempMin"].

Definition report_row (r : ImageRecord) : list cell :=
  [ CStr (FileName r); CTime (DateTime r); CJson (FocalLength r);
    CFloat (TempMax r); CFloat (TempMin r) ].

(** A record where the timestamp and both temperatures are null. *)
Definition record_of_nulls : ImageRecord :=
  mkRecord "b.jpg" None (JStr "N/A") None None.

(** A record the plot keeps: none of the three cells is null for pandas
    ([None], [NaT] and the float NaN are). *)
Definition complete (r : ImageRecord) : bool :=
  forallb (notna_at r) ["DateTime"; "TempMax"; "TempMin"].

(** A temperature that is a number. *)
Definition known (x : option float) : Prop :=
  exists f, x = Some f /\ PyFloat.is_nan f = false.

(** Ascending in the instant, nulls last. *)
Definition time_le (a b : ImageRecord) : Prop :=
  time_leb (DateTime a) (DateTime b) = true.

(** The rows the plot shows. *)
Definition plotted (data : list ImageRecord) : list ImageRecord :=
  sort_rows (filter complete data).

(** A column of the frame shown, as [df[col]] gives it. *)
Definition column_of (f : ImageRecord -> cell) (l : list ImageRecord)
  : list (option cell) :=
  map (fun r => Some (f r)) l.







(** One image whose timestamp is [stamp]. *)
Definition world_stamped (stamp : string) : World :=
  mkWorld Posix (fun _ => Some "/usr/bin/exiftool")
    (fun _ => Dir ["a.jpg"])
    (fun _ => mkProcess
                (JsonText.dq ("[{'DateTimeOriginal': '" ++ stamp
                              ++ "', 'ImageTemperatureMax': 300, 'ImageTemperatureMin': 295}]"))
                0).

(** The two directions of the calendar agree on a day of the era. *)
Definition era_day_ok (doe : Z) : bool :=
  let '(yoe, m, d) := civil_of_doe doe in
  (0 <=? yoe) && (yoe <? 400) && (doe_of_civil yoe m d =? doe).

(** [ok] holds on the [len] integers from [lo], by halving. *)
Fixpoint range_ok (ok : Z -> bool) (fuel : nat) (lo len : Z) : bool :=
  match fuel with
  | O => len <=? 0
  | S fuel' =>
      if len <=? 0 then true
      else if len =? 1 then ok lo
      else range_ok ok fuel' lo (len / 2)
           && range_ok ok fuel' (lo + len / 2) (len - len / 2)
  end.

(** [s] ends in [suffix]. *)
Definition ends_with (suffix s : string) : Prop :=
  exists stem, s = stem ++ suffix.

(** A name with one of the three extensions, as written. *)
Definition image_name (n : string) : Prop :=
  ends_with ".jpg" n \/ ends_with ".jpeg" n \/ ends_with ".png" n.


(** A pattern without [*]. *)
Fixpoint plain (pat : string) : bool :=
  match pat with
  | EmptyString => true
  | String c pat' => negb (Ascii.eqb c "*") && plain pat'
  end.




(** ** The vocabulary of the further properties *)

(** One run of the tool, on [photo]. *)
Definition tool_run (w : World) (photo : Path) : event :=
  SubprocessRun (exiftool_argv (os w) photo).

(** The output of the tool for [photo] gets past the [try]. *)
Definition decodes (json_loads : string -> option json) (w : World) (photo : Path) : bool :=
  match first_object json_loads (stdout (run w (exiftool_argv (os w) photo))) with
  | Some _ => true
  | None => false
  end.

(** A name one of the three patterns matches on the platform. *)
Definition is_image (os : platform) (n : string) : bool :=
  fnmatch (casefold os "*.jpg") (casefold os n)
  || fnmatch (casefold os "*.jpeg") (casefold os n)
  || fnmatch (casefold os "*.png") (casefold os n).

(** The character before the last. *)
Fixpoint penultimate (s : string) : option ascii :=
  match s with
  | String c (String _ EmptyString) => Some c
  | String _ s' => penultimate s'
  | EmptyString => None
  end.


(** What [plot_temperatures] does with the rows [shown] of the frame
    after [dropna] and [sort_values]. *)
Definition plot_of (shown : list ImageRecord) : M unit :=
  match shown with
  | [] => ([Print "Žádná platná data pro vykreslení grafu."], Ok tt)
  | _ =>
      ([ PltPlot (column_of (fun r => CTime (DateTime r)) shown)
                 (column_of (fun r => CFloat (TempMax r)) shown)
                 "maximální teplota" "red";
         PltPlot (column_of (fun r => CTime (DateTime r)) shown)
                 (column_of (fun r => CFloat (TempMin r)) shown)
                 "minimální teplota" "blue";
         PltSavefig "temperature_plot.jpg";
         PltShow ], Ok tt)
  end.

(** The instant of the capture time of a record. *)
Definition instant (r : ImageRecord) : option Z := option_map value (DateTime r).

(** The order of [time_leb] on instants. *)
Definition instant_le (a b : option Z) : Prop :=
  match a, b with
  | Some x, Some y => x <= y
  | Some _, None => True
  | None, Some _ => False
  | None, None => True
  end.

(** Two complete records, the later one first. *)
Definition record_at_10 : ImageRecord :=
  mkRecord "a.jpg" (Some (mkTimestamp 1704103200000000000 None)) (JStr "N/A")
           (Some (PyFloat.of_decimal false 2685 (-2)))
           (Some (PyFloat.of_decimal false 2185 (-2))).

Definition record_at_09 : ImageRecord :=
  mkRecord "b.jpg" (Some (mkTimestamp 1704099600000000000 None)) (JStr "N/A")
           (Some (PyFloat.of_decimal false 2585 (-2)))
           (Some (PyFloat.of_decimal false 2085 (-2))).

(** The same float: the same zero, infinity or NaN, or the same sign,
    mantissa and exponent. *)
Definition float_eqb (x y : float) : bool :=
  match x, y with
  | S754_zero a, S754_zero b => Bool.eqb a b
  | S754_infinity a, S754_infinity b => Bool.eqb a b
  | S754_nan, S754_nan => true
  | S754_finite a m e, S754_finite b n f => Bool.eqb a b && Pos.eqb m n && Z.eqb e f
  | _, _ => false
  end.

(** The float Python reads the decimal of [c] hundredths as: the float
    nearest to [c / 100]. *)
Definition centi (c : Z) : float :=
  if c <? 0 then PyFloat.of_decimal true (- c) (-2) else PyFloat.of_decimal false c (-2).

(** The conversion of [k] hundredths of a kelvin, given as a float, is the
    float of [k - 27315] hundredths. *)
Definition centikelvin_ok (k : Z) : bool :=
  match kelvin_to_celsius (JFloat (centi k)) with
  | Ok (Some x) => float_eqb x (centi (k - 27315))
  | _ => false
  end.

(** The conversion of [z] kelvin, given as an [int], is the float of
    [100 * z - 27315] hundredths. *)
Definition kelvin_ok (z : Z) : bool :=
  match kelvin_to_celsius (JInt z) with
  | Ok (Some x) => float_eqb x (centi (100 * z - 27315))
  | _ => false
  end.


(* ================================================================= *)
(** * The properties *)

(** ** The temperature conversion *)

Lemma sub_float_number (temp : json) (y : float) :
  sub_float temp y =
  match float_of_number temp with
  | Ok x => Ok (PyFloat.sub x y)
  | Raise e => Raise e
  end.
Proof.
  destruct temp; simpl; try reflexivity.
Qed.

(** The spec's example values: 300 K is 26.85 degrees and 295 K is 21.85
    degrees, as the floats nearest to these decimals. *)
Example kelvin_300 :
  kelvin_to_celsius (JInt 300) = Ok (Some (PyFloat.of_decimal false 2685 (-2))).
Proof. vm_compute. reflexivity. Qed.

Example kelvin_295 :
  kelvin_to_celsius (JInt 295) = Ok (Some (PyFloat.of_decimal false 2185 (-2))).
Proof. vm_compute. reflexivity. Qed.

(** The largest [int] that converts to a float, and the first that does
    not. *)
Example float_of_int_last :
  exists x, float_of_int (2 ^ 1024 - 2 ^ 970 - 1) = Ok x.
Proof. eexists. vm_compute. reflexivity. Qed.

Example float_of_int_first_overflow :
  float_of_int (2 ^ 1024 - 2 ^ 970) = Raise OverflowError.
Proof. vm_compute. reflexivity. Qed.

(** [bool] is an [int]: [True] is converted as the number one. *)
Example kelvin_True :
  kelvin_to_celsius (JBool true) = Ok (Some (PyFloat.of_decimal true 27215 (-2))).
Proof. vm_compute. reflexivity. Qed.

(** C3, as stated, fails: an [int] beyond the range of a float is a
    numeric input for which the conversion returns nothing, the
    subtraction raising [OverflowError]. *)
Lemma kelvin_to_celsius_overflow :
  isinstance_int_float (JInt (10 ^ 400)) = true /\
  kelvin_to_celsius (JInt (10 ^ 400)) = Raise OverflowError.
Proof. split; vm_compute; reflexivity. Qed.

(** C3, amended: for every number that Python converts to a float [x] (a
    float, a [bool], an [int] in the range of a float) the conversion returns
    [round(x - 273.15, 2)]; for every input that is not an [int], [bool] or
    [float] ([None] for a missing field, a string, a list, a dict) it
    returns [None] and raises nothing. *)
Theorem kelvin_to_celsius_correct (temp : json) :
  (forall x : float,
      float_of_number temp = Ok x ->
      kelvin_to_celsius temp = Ok (Some (PyFloat.round2 (PyFloat.sub x f273_15)))) /\
  (isinstance_int_float temp = false -> kelvin_to_celsius temp = Ok None).
Proof.
  split.
  - intros x Hx. unfold kelvin_to_celsius.
    rewrite sub_float_number, Hx.
    destruct temp; simpl in *; try discriminate; reflexivity.
  - intros Hn. unfold kelvin_to_celsius. rewrite Hn. reflexivity.
Qed.

Lemma kelvin_to_celsius_correct_witness :
  kelvin_to_celsius (JInt 300)
  = Ok (Some (PyFloat.round2 (PyFloat.sub (PyFloat.of_Z 300) f273_15))) /\
  kelvin_to_celsius (JStr "300") = Ok None.
Proof.
  split.
  - apply (proj1 (kelvin_to_celsius_correct (JInt 300))). vm_compute. reflexivity.
  - apply (proj2 (kelvin_to_celsius_correct (JStr "300"))). reflexivity.
Defined.

(* ================================================================= *)
(** ** The preconditions of [extract_metadata] *)

Section Preconditions.

Variable json_loads : string -> option json.
Variable datetime_of_other : json -> result (option Timestamp).

Let extract := extract_metadata json_loads datetime_of_other.

Lemma extract_tool_missing (w : World) (folder_path : string) :
  which w "exiftool" = None ->
  extract w folder_path = ([], Raise (FileNotFoundError tool_missing_msg)).
Proof.
  intros Hw. unfold extract, extract_metadata. rewrite Hw. reflexivity.
Qed.

Lemma extract_bad_folder (w : World) (folder_path tool : string) :
  which w "exiftool" = Some tool ->
  (forall entries, fs w folder_path <> Dir entries) ->
  extract w folder_path = ([], Raise (FileNotFoundError (bad_folder_msg folder_path))).
Proof.
  intros Hw Hd. unfold extract, extract_metadata. rewrite Hw.
  destruct (fs w folder_path) as [| |entries] eqn:Hfs; try reflexivity.
  exfalso. exact (Hd entries eq_refl).
Qed.

Lemma extract_dir (w : World) (folder_path tool : string) (entries : list string) :
  which w "exiftool" = Some tool ->
  fs w folder_path = Dir entries ->
  extract w folder_path =
  match photos_of (os w) folder_path entries with
  | [] => ([Print "Ve složce nejsou žádné obrázky."], Ok [])
  | photos => extract_loop json_loads datetime_of_other w photos []
  end.
Proof.
  intros Hw Hd. unfold extract, extract_metadata. rewrite Hw, Hd.
  destruct (photos_of _ _ _); reflexivity.
Qed.

End Preconditions.

Lemma messages_differ (folder_path : string) :
  FileNotFoundError tool_missing_msg <> FileNotFoundError (bad_folder_msg folder_path).
Proof.
  unfold tool_missing_msg, bad_folder_msg. simpl. intros H. inversion H.
Qed.

(** C4: without the tool on the search path [extract_metadata] raises the
    tool error; with the tool, and a folder that is missing or is not a
    directory, it raises the folder error; the two errors differ, each ends
    the call, and neither is preceded by any event, so no file has been
    processed. *)
Theorem extract_preconditions
  (json_loads : string -> option json)
  (datetime_of_other : json -> result (option Timestamp))
  (w : World) (folder_path : string) :
  (which w "exiftool" = None ->
   extract_metadata json_loads datetime_of_other w folder_path
   = ([], Raise (FileNotFoundError tool_missing_msg))) /\
  (which w "exiftool" <> None ->
   (forall entries, fs w folder_path <> Dir entries) ->
   extract_metadata json_loads datetime_of_other w folder_path
   = ([], Raise (FileNotFoundError (bad_folder_msg folder_path)))) /\
  FileNotFoundError tool_missing_msg <> FileNotFoundError (bad_folder_msg folder_path).
Proof.
  split; [|split].
  - apply extract_tool_missing.
  - intros Hw Hd. destruct (which w "exiftool") as [tool|] eqn:E; [|congruence].
    eapply extract_bad_folder; eauto.
  - apply messages_differ.
Qed.

Lemma extract_preconditions_witness :
  extract_metadata JsonText.loads (fun _ => Ok None) world_no_tool "photos"
  = ([], Raise (FileNotFoundError tool_missing_msg)) /\
  extract_metadata JsonText.loads (fun _ => Ok None) world_file_not_dir "photos"
  = ([], Raise (FileNotFoundError (bad_folder_msg "photos"))).
Proof.
  split.
  - apply (proj1 (extract_preconditions JsonText.loads (fun _ => Ok None)
                    world_no_tool "photos")).
    reflexivity.
  - apply (proj1 (proj2 (extract_preconditions JsonText.loads (fun _ => Ok None)
                           world_file_not_dir "photos"))).
    + simpl. discriminate.
    + simpl. discriminate.
Defined.

(** ** A folder without images *)

(** C8: with both preconditions met and no entry matching one of the three
    patterns, [extract_metadata] prints the diagnostic and returns the empty
    list; the diagnostic is the only event, so the tool is never run. *)
Theorem extract_no_images
  (json_loads : string -> option json)
  (datetime_of_other : json -> result (option Timestamp))
  (w : World) (folder_path tool : string) (entries : list string) :
  which w "exiftool" = Some tool ->
  fs w folder_path = Dir entries ->
  photos_of (os w) folder_path entries = [] ->
  extract_metadata json_loads datetime_of_other w folder_path
  = ([Print "Ve složce nejsou žádné obrázky."], Ok []) /\
  no_subprocess (events (extract_metadata json_loads datetime_of_other w folder_path)).
Proof.
  intros Hw Hd Hp.
  assert (E : extract_metadata json_loads datetime_of_other w folder_path
              = ([Print "Ve složce nejsou žádné obrázky."], Ok [])).
  { rewrite (extract_dir _ _ _ _ _ _ Hw Hd), Hp. reflexivity. }
  split; [exact E|].
  rewrite E. intros argv [H|[]]. discriminate H.
Qed.

Lemma extract_no_images_witness :
  extract_metadata JsonText.loads (fun _ => Ok None) world_no_images "photos"
  = ([Print "Ve složce nejsou žádné obrázky."], Ok []).
Proof.
  apply (extract_no_images JsonText.loads (fun _ => Ok None) world_no_images
           "photos" "/usr/bin/exiftool" ["notes.txt"; "IMG_1.JPG"; "jpg"]);
    reflexivity.
Defined.

(* ================================================================= *)
(** ** The monad *)


Lemma bind_raise_l {A B : Type} (l : list event) (e : exn) (k : A -> M B) :
  bind (l, Raise e) k = (l, Raise e).
Proof. reflexivity. Qed.



Lemma outcome_bind {A B : Type} (m : M A) (k : A -> M B) :
  outcome (bind m k) =
  match outcome m with
  | Ok a => outcome (k a)
  | Raise e => Raise e
  end.
Proof.
  destruct m as [l [a|e]]; simpl; [|reflexivity].
  destruct (k a). reflexivity.
Qed.

Lemma events_bind {A B : Type} (m : M A) (k : A -> M B) :
  events (bind m k) =
  match outcome m with
  | Ok a => (events m ++ events (k a))%list
  | Raise e => events m
  end.
Proof.
  destruct m as [l [a|e]]; simpl; [|reflexivity].
  destruct (k a). reflexivity.
Qed.

(* ================================================================= *)
(** ** The loop over the files *)

Lemma strptime_aware (fmt s : string) (ts : Timestamp) :
  strptime fmt s = Some ts ->
  exists off, tz ts = Some off.
Proof.
  unfold strptime.
  destruct (option_map sequence (pattern fmt)) as [[r|]|]; try discriminate.
  destruct (Re.rmatch r s) as [|[[t g] rest] l]; try discriminate.
  destruct rest; try discriminate.
  destruct (parse_timezone_directive _) as [off|]; try discriminate.
  destruct (_ && _); try discriminate.
  intros H. inversion H. exists off. reflexivity.
Qed.

(** [now] and [today] are not timestamps of the format. *)
Lemma today_now_unparsed (s : string) :
  today_now s = true -> strptime datetime_format s = None.
Proof.
  unfold today_now. intros H. apply orb_true_iff in H.
  destruct H as [H|H]; apply String.eqb_eq in H; subst s; vm_compute; reflexivity.
Qed.





Section Loop.

Variable json_loads : string -> option json.
Variable datetime_of_other : json -> result (option Timestamp).

Let first := first_object json_loads.
Let body := loop_body json_loads datetime_of_other.
Let record := record_of datetime_of_other.




Lemma loop_body_skip (w : World) (photo : Path) (data : list ImageRecord) :
  first (stdout (run w (exiftool_argv (os w) photo))) = None ->
  body w photo data = ([SubprocessRun (exiftool_argv (os w) photo)], Ok data).
Proof.
  intros H. unfold body, loop_body. fold first. rewrite H. reflexivity.
Qed.

Lemma loop_body_record (w : World) (photo : Path) (data : list ImageRecord)
  (metadata : json) :
  first (stdout (run w (exiftool_argv (os w) photo))) = Some metadata ->
  body w photo data =
  ([SubprocessRun (exiftool_argv (os w) photo)],
   match record photo metadata with
   | Ok r => Ok (data ++ [r])%list
   | Raise e => Raise e
   end).
Proof.
  intros H. unfold body, loop_body. fold first. rewrite H. fold record.
  destruct (record photo metadata); reflexivity.
Qed.


End Loop.

(* ================================================================= *)
(** ** Files whose output cannot be parsed *)



(** The spec's scenario: two images, valid output for the first and text
    that is not JSON for the second give one record, with 26.85 and 21.85
    degrees. *)
Example extract_two_images :
  outcome (extract_metadata JsonText.loads (fun _ => Ok None) world_two_images "photos")
  = Ok [ mkRecord "a.jpg" (Some (mkTimestamp 1704103200000000000 None))
                  (JStr "13.0 mm")
                  (Some (PyFloat.of_decimal false 2685 (-2)))
                  (Some (PyFloat.of_decimal false 2185 (-2))) ].
Proof. vm_compute. reflexivity. Qed.

(* ================================================================= *)
(** ** Totality *)


(** An [int] too large for a float in a temperature field raises as
    well. *)
Example extract_metadata_overflow :
  outcome (extract_metadata JsonText.loads (fun _ => Ok None)
                            world_huge_temperature "photos")
  = Raise OverflowError.
Proof. vm_compute. reflexivity. Qed.

Section Totality.

Variable json_loads : string -> option json.
Variable datetime_of_other : json -> result (option Timestamp).


End Totality.



(* ================================================================= *)
(** ** The report *)

(** C7: for an empty list [save_to_excel] prints the diagnostic and writes
    nothing; otherwise it writes one file whose header is the five column
    names in order and whose body has one row per record of the input, in
    order, nulls included: nothing is filtered. *)
Theorem save_to_excel_rows (data : list ImageRecord) (output_file : string) :
  (data = [] ->
   save_to_excel data output_file = ([Print "Žádná data k uložení."], Ok tt)) /\
  (data <> [] ->
   save_to_excel data output_file
   = ([ToExcel output_file report_columns (map report_row data);
       Print ("Data byla uložena do " ++ output_file)], Ok tt)) /\
  List.length (map report_row data) = List.length data.
Proof.
  split; [|split].
  - intros ->. reflexivity.
  - intros H. destruct data as [|r l]; [congruence|]. reflexivity.
  - apply length_map.
Qed.

Lemma save_to_excel_rows_witness :
  save_to_excel [] "metadata.xlsx" = ([Print "Žádná data k uložení."], Ok tt) /\
  save_to_excel [record_of_nulls] "metadata.xlsx"
  = ([ToExcel "metadata.xlsx" report_columns
        [[CStr "b.jpg"; CTime None; CJson (JStr "N/A"); CFloat None; CFloat None]];
      Print "Data byla uložena do metadata.xlsx"], Ok tt).
Proof.
  split.
  - apply (proj1 (save_to_excel_rows [] "metadata.xlsx")). reflexivity.
  - apply (proj1 (proj2 (save_to_excel_rows [record_of_nulls] "metadata.xlsx"))).
    discriminate.
Defined.

(* ================================================================= *)
(** ** The plot *)

Lemma complete_spec (r : ImageRecord) :
  complete r = true <->
  (exists t, DateTime r = Some t) /\ known (TempMax r) /\ known (TempMin r).
Proof.
  unfold complete, known. destruct r as [fn dt fl tmax tmin]. simpl.
  unfold notna_at. simpl. split.
  - intros H.
    destruct dt as [t|]; [|discriminate].
    destruct tmax as [x|]; [|discriminate].
    destruct tmin as [y|]; [|simpl in H; rewrite andb_false_r in H; discriminate].
    simpl in H. rewrite andb_true_r in H. apply andb_prop in H. destruct H as [Hx Hy].
    apply negb_true_iff in Hx. apply negb_true_iff in Hy.
    split; [eauto|]. split; eauto.
  - intros [[t ->] [[x [-> Hx]] [y [-> Hy]]]]. simpl. rewrite Hx, Hy. reflexivity.
Qed.

Lemma time_leb_total (a b : option Timestamp) :
  time_leb a b = false -> time_leb b a = true.
Proof.
  destruct a as [x|], b as [y|]; simpl; try discriminate; auto.
  intros H. apply Z.leb_gt in H. apply Z.leb_le. lia.
Qed.

Lemma insort_perm (r : ImageRecord) (l : list ImageRecord) :
  Permutation (insort r l) (r :: l).
Proof.
  induction l as [|a l IH]; simpl.
  - apply Permutation_refl.
  - destruct (time_leb (DateTime r) (DateTime a)).
    + apply Permutation_refl.
    + apply perm_trans with (a :: r :: l).
      * apply perm_skip, IH.
      * apply perm_swap.
Qed.

Lemma sort_rows_perm (l : list ImageRecord) : Permutation (sort_rows l) l.
Proof.
  induction l as [|a l IH]; simpl.
  - apply perm_nil.
  - apply perm_trans with (a :: sort_rows l).
    + apply insort_perm.
    + apply perm_skip, IH.
Qed.

Lemma insort_hdrel (a r : ImageRecord) (l : list ImageRecord) :
  time_le a r -> HdRel time_le a l -> HdRel time_le a (insort r l).
Proof.
  intros Har Hl. destruct l as [|b l]; simpl.
  - constructor. exact Har.
  - destruct (time_leb (DateTime r) (DateTime b)).
    + constructor. exact Har.
    + constructor. inversion Hl. assumption.
Qed.

Lemma insort_sorted (r : ImageRecord) (l : list ImageRecord) :
  Sorted time_le l -> Sorted time_le (insort r l).
Proof.
  induction 1 as [|a l Hs IH Hd]; simpl.
  - repeat constructor.
  - destruct (time_leb (DateTime r) (DateTime a)) eqn:E.
    + constructor.
      * constructor; assumption.
      * constructor. exact E.
    + constructor.
      * exact IH.
      * apply insort_hdrel; [|exact Hd]. apply time_leb_total. exact E.
Qed.

Lemma sort_rows_sorted (l : list ImageRecord) : Sorted time_le (sort_rows l).
Proof.
  induction l as [|a l IH]; simpl.
  - constructor.
  - apply insort_sorted, IH.
Qed.

(** For a list that is not empty, the plot shows the complete records of
    the input and only them, in ascending order of capture time; when none
    is complete it prints the diagnostic and saves no file. *)
Lemma plot_temperatures_series (data : list ImageRecord) :
  data <> [] ->
  Permutation (plotted data) (filter complete data) /\
  Sorted time_le (plotted data) /\
  plot_temperatures data =
  match plotted data with
  | [] => ([Print "Žádná platná data pro vykreslení grafu."], Ok tt)
  | shown =>
      ([ PltPlot (column_of (fun r => CTime (DateTime r)) shown)
                 (column_of (fun r => CFloat (TempMax r)) shown)
                 "maximální teplota" "red";
         PltPlot (column_of (fun r => CTime (DateTime r)) shown)
                 (column_of (fun r => CFloat (TempMin r)) shown)
                 "minimální teplota" "blue";
         PltSavefig "temperature_plot.jpg";
         PltShow ], Ok tt)
  end.
Proof.
  intros H. split; [apply sort_rows_perm|]. split; [apply sort_rows_sorted|].
  destruct data as [|r l]; [congruence|].
  unfold plot_temperatures, plotted.
  change (dropna ["DateTime"; "TempMax"; "TempMin"] (DataFrame_of (r :: l)))
    with (Ok (mkFrame report_columns (filter complete (r :: l)))).
  cbn [lift bind].
  change (sort_values_DateTime (mkFrame report_columns (filter complete (r :: l))))
    with (Ok (mkFrame report_columns (sort_rows (filter complete (r :: l))))).
  cbn [lift bind].
  destruct (sort_rows (filter complete (r :: l))) as [|a shown]; reflexivity.
Qed.

(** The spec's example: records at 10:00 and 09:00 are shown with the
    second before the first. *)
Example plotted_order :
  let at10 := mkRecord "a.jpg" (Some (mkTimestamp 1704103200000000000 None)) (JStr "N/A")
                       (Some (PyFloat.of_decimal false 2685 (-2)))
                       (Some (PyFloat.of_decimal false 2185 (-2))) in
  let at09 := mkRecord "b.jpg" (Some (mkTimestamp 1704099600000000000 None)) (JStr "N/A")
                       (Some (PyFloat.of_decimal false 2685 (-2)))
                       (Some (PyFloat.of_decimal false 2185 (-2))) in
  plotted [at10; record_of_nulls; at09] = [at09; at10] /\
  plotted [at09; at10; record_of_nulls] = [at09; at10].
Proof. split; vm_compute; reflexivity. Qed.

(** C6 fails on the code for the empty list, where no record survives the
    filter: a frame made from an empty list has no columns, [dropna] raises
    [KeyError] on the labels of [subset], and the diagnostic is never
    printed. *)
Theorem plot_temperatures_empty_input :
  filter complete [] = [] /\
  plot_temperatures []
  = ([], Raise (KeyError ["DateTime"; "TempMax"; "TempMin"])).
Proof. split; reflexivity. Qed.

(** The entry point never calls the plot with the empty list. *)
Lemma main_guards_plot
  (json_loads : string -> option json)
  (datetime_of_other : json -> result (option Timestamp))
  (w : World) (folder output_excel : string) :
  outcome (extract_metadata json_loads datetime_of_other w folder) = Ok [] ->
  outcome (main json_loads datetime_of_other w folder output_excel) = Ok tt.
Proof.
  intros H. unfold main. rewrite outcome_bind, H. reflexivity.
Qed.

(* ================================================================= *)
(** ** What a timestamp must look like to parse *)













(* ================================================================= *)
(** ** The capture time of a record *)

Section CaptureTime.

Variable json_loads : string -> option json.
Variable datetime_of_other : json -> result (option Timestamp).

Lemma record_of_dict (photo : Path) (d : list (string * json)) :
  record_of datetime_of_other photo (JDict d) =
  match to_naive_datetime datetime_of_other (lookup d "DateTimeOriginal" JNone) with
  | Raise e => Raise e
  | Ok date_time =>
      match kelvin_to_celsius (lookup d "ImageTemperatureMax" JNone) with
      | Raise e => Raise e
      | Ok tmax =>
          match kelvin_to_celsius (lookup d "ImageTemperatureMin" JNone) with
          | Raise e => Raise e
          | Ok tmin =>
              Ok (mkRecord (name photo) date_time (lookup d "FocalLength" (JStr "N/A"))
                           tmax tmin)
          end
      end
  end.
Proof. reflexivity. Qed.

Lemma to_naive_datetime_parsed (s : string) (ts : Timestamp) :
  strptime datetime_format s = Some ts ->
  to_naive_datetime datetime_of_other (JStr s) = Ok (Some (mkTimestamp (value ts) None)).
Proof.
  intros H. simpl.
  destruct (today_now s) eqn:E; [rewrite (today_now_unparsed _ E) in H; discriminate|].
  rewrite H.
  destruct (strptime_aware _ _ _ H) as [off Hoff].
  unfold tz_convert_None. rewrite Hoff. reflexivity.
Qed.

Lemma to_naive_datetime_unparsed (s : string) :
  today_now s = false ->
  strptime datetime_format s = None ->
  to_naive_datetime datetime_of_other (JStr s) = Ok None.
Proof. intros Hn H. simpl. rewrite Hn, H. reflexivity. Qed.

Lemma to_naive_datetime_today_now (s : string) :
  today_now s = true ->
  to_naive_datetime datetime_of_other (JStr s) = Raise TypeError.
Proof. intros H. simpl. rewrite H. reflexivity. Qed.

End CaptureTime.


(** An offset of a day or more is not read: the timestamp does not
    parse, as for a string of another shape; an offset of a minute less
    is read. *)
Example offset_of_a_day :
  strptime datetime_format "2024:01:01 10:00:00.000+24:00" = None /\
  strptime datetime_format "2024:01:01 10:00:00.000+99:59" = None /\
  strptime datetime_format "2024:01:01 10:00:00.000-24:00" = None /\
  strptime datetime_format "2024:01:01 10:00:00.000+23:59"
  = Some (mkTimestamp 1704016860000000000 (Some 1439)).
Proof. repeat split; vm_compute; reflexivity. Qed.

(** For the timestamp [now] the turn of the loop raises [TypeError]: the
    time of the clock has no zone to convert from. *)
Example extract_metadata_now :
  extract_metadata JsonText.loads (fun _ => Ok None) (world_stamped "now") "photos"
  = ([SubprocessRun (exiftool_argv Posix (mkPath "photos" "a.jpg"))], Raise TypeError) /\
  handled JsonText.loads (stdout (run (world_stamped "now") [])) = false.
Proof. split; vm_compute; reflexivity. Qed.



(** C1, as stated, fails: for an offset of two hours the parse reads ten
    o'clock and the stored capture time reads eight. *)
Lemma capture_time_clock_changes :
  exists ts r t,
    strptime datetime_format "2024:01:01 10:00:00.000+02:00" = Some ts /\
    tz ts = Some 120 /\
    hour (clock ts) = 10 /\
    outcome (extract_metadata JsonText.loads (fun _ => Ok None)
                              (world_stamped "2024:01:01 10:00:00.000+02:00") "photos")
    = Ok [r] /\
    DateTime r = Some t /\
    tz t = None /\
    hour (clock t) = 8.
Proof.
  do 3 eexists. split; [vm_compute; reflexivity|].
  split; [reflexivity|]. split; [vm_compute; reflexivity|].
  split; [vm_compute; reflexivity|].
  split; [reflexivity|]. split; [reflexivity|]. vm_compute. reflexivity.
Qed.

(* ================================================================= *)
(** ** The calendar *)

Lemma range_ok_spec (ok : Z -> bool) (fuel : nat) :
  forall lo len, range_ok ok fuel lo len = true ->
  forall x, lo <= x < lo + len -> ok x = true.
Proof.
  induction fuel as [|fuel IH]; intros lo len H x Hx; simpl in H.
  - apply Z.leb_le in H. lia.
  - destruct (len <=? 0) eqn:E0; [apply Z.leb_le in E0; lia|].
    destruct (len =? 1) eqn:E1.
    + apply Z.eqb_eq in E1. replace x with lo by lia. exact H.
    + apply andb_prop in H. destruct H as [H1 H2].
      destruct (Z_lt_le_dec x (lo + len / 2)) as [Hlt|Hge].
      * apply (IH _ _ H1). lia.
      * apply (IH _ _ H2). lia.
Qed.

Lemma era_days_ok : range_ok era_day_ok 20 0 146097 = true.
Proof. vm_compute. reflexivity. Qed.

Lemma era_day_ok_all (doe : Z) : 0 <= doe < 146097 -> era_day_ok doe = true.
Proof.
  intros H. apply (range_ok_spec _ _ _ _ era_days_ok). lia.
Qed.

Lemma days_from_civil_from_days (z : Z) :
  let '(y, m, d) := civil_from_days z in days_from_civil y m d = z.
Proof.
  unfold civil_from_days.
  set (era := (z + 719468) / 146097).
  set (doe := z + 719468 - era * 146097).
  assert (Hdoe : 0 <= doe < 146097).
  { subst doe era. pose proof (Z.div_mod (z + 719468) 146097).
    pose proof (Z.mod_pos_bound (z + 719468) 146097). lia. }
  pose proof (era_day_ok_all doe Hdoe) as Hok. unfold era_day_ok in Hok.
  destruct (civil_of_doe doe) as [[yoe m] d].
  apply andb_prop in Hok. destruct Hok as [Hok Heq].
  apply andb_prop in Hok. destruct Hok as [H0 H400].
  apply Z.leb_le in H0. apply Z.ltb_lt in H400. apply Z.eqb_eq in Heq.
  unfold days_from_civil. cbv zeta.
  replace (yoe + era * 400 + (if m <=? 2 then 1 else 0) - (if m <=? 2 then 1 else 0))
    with (yoe + era * 400) by lia.
  rewrite Z.div_add by lia. rewrite (Z.div_small yoe 400) by lia.
  replace (yoe + era * 400 - (0 + era) * 400) with yoe by lia.
  rewrite Heq. subst doe. lia.
Qed.

Lemma clock_time_roundtrip (r : Z) :
  0 <= r < ns_per_day ->
  (r / 1000000000 / 3600 * 3600 + r / 1000000000 mod 3600 / 60 * 60
   + r / 1000000000 mod 60) * 1000000000 + r mod 1000000000 = r.
Proof.
  intros _.
  set (secs := r / 1000000000).
  assert (Hs : secs / 3600 * 3600 + secs mod 3600 / 60 * 60 + secs mod 60 = secs).
  { pose proof (Z.div_mod secs 3600). pose proof (Z.div_mod (secs mod 3600) 60).
    assert (E : (secs mod 3600) mod 60 = secs mod 60).
    { replace 3600 with (60 * 60) by reflexivity.
      rewrite Z.rem_mul_r by lia.
      rewrite (Z.mul_comm 60), Z.mod_add by lia.
      apply Z.mod_mod. lia. }
    lia. }
  rewrite Hs. subst secs. pose proof (Z.div_mod r 1000000000). lia.
Qed.

Lemma ns_of_fields_of_ns (v : Z) : ns_of_fields (fields_of_ns v) = v.
Proof.
  unfold fields_of_ns, ns_of_fields.
  pose proof (days_from_civil_from_days (v / ns_per_day)) as Hd.
  destruct (civil_from_days (v / ns_per_day)) as [[y m] d]. cbn [year month day hour minute second nanosecond].
  rewrite Hd.
  assert (Hr : 0 <= v mod ns_per_day < ns_per_day)
    by (apply Z.mod_pos_bound; reflexivity).
  rewrite <- Z.add_assoc, (clock_time_roundtrip _ Hr).
  pose proof (Z.div_mod v ns_per_day). 
  assert (ns_per_day <> 0) by discriminate. lia.
Qed.

(** Two instants with the same clock fields are the same instant. *)
Lemma fields_of_ns_inj (u v : Z) : fields_of_ns u = fields_of_ns v -> u = v.
Proof.
  intros H. rewrite <- (ns_of_fields_of_ns u), <- (ns_of_fields_of_ns v), H.
  reflexivity.
Qed.

(* ================================================================= *)
(** ** The stored capture time reads UTC *)

(** C1, amended: for every record whose timestamp string parses, the
    stored capture time is timezone-naive and is the same instant read in
    UTC: its clock is the clock of the parse moved back by the offset, and
    the clock fields are those of the parse exactly when the offset is
    zero. *)
Theorem capture_time_is_utc
  (datetime_of_other : json -> result (option Timestamp))
  (photo : Path) (d : list (string * json)) (s : string)
  (ts : Timestamp) (r : ImageRecord) :
  assoc "DateTimeOriginal" d = Some (JStr s) ->
  strptime datetime_format s = Some ts ->
  record_of datetime_of_other photo (JDict d) = Ok r ->
  exists off t,
    tz ts = Some off /\
    DateTime r = Some t /\
    tz t = None /\
    value t = value ts /\
    wall_ns t = wall_ns ts - off * ns_per_minute /\
    (clock t = clock ts <-> off = 0).
Proof.
  intros Hs Hp Hr.
  destruct (strptime_aware _ _ _ Hp) as [off Hoff].
  exists off, (mkTimestamp (value ts) None).
  rewrite record_of_dict in Hr. unfold lookup at 1 in Hr. rewrite Hs in Hr.
  rewrite (to_naive_datetime_parsed _ _ _ Hp) in Hr.
  destruct (kelvin_to_celsius (lookup d "ImageTemperatureMax" JNone)); [|discriminate].
  destruct (kelvin_to_celsius (lookup d "ImageTemperatureMin" JNone)); [|discriminate].
  inversion Hr. subst r. clear Hr. simpl.
  assert (Hw : wall_ns ts = value ts + off * ns_per_minute)
    by (unfold wall_ns; rewrite Hoff; reflexivity).
  repeat split; auto.
  - unfold wall_ns at 1. simpl. lia.
  - unfold clock. intros H. apply fields_of_ns_inj in H.
    rewrite Hw in H. unfold wall_ns in H. simpl in H.
    unfold ns_per_minute in H. lia.
  - intros ->. unfold clock. rewrite Hw. unfold wall_ns at 1. simpl.
    f_equal. lia.
Qed.

Lemma capture_time_is_utc_witness :
  exists off t,
    Some 120 = Some off /\
    Some (mkTimestamp 1704096000000000000 None) = Some t /\
    tz t = None /\
    value t = 1704096000000000000 /\
    wall_ns t = wall_ns (mkTimestamp 1704096000000000000 (Some 120)) - off * ns_per_minute /\
    (clock t = clock (mkTimestamp 1704096000000000000 (Some 120)) <-> off = 0).
Proof.
  apply (capture_time_is_utc (fun _ => Ok None) (mkPath "photos" "a.jpg")
           [("DateTimeOriginal", JStr "2024:01:01 10:00:00.000+02:00")]
           "2024:01:01 10:00:00.000+02:00"
           (mkTimestamp 1704096000000000000 (Some 120))
           (mkRecord "a.jpg" (Some (mkTimestamp 1704096000000000000 None))
                     (JStr "N/A") None None)).
  - reflexivity.
  - vm_compute. reflexivity.
  - vm_compute. reflexivity.
Defined.

(* ================================================================= *)
(** ** Which files are processed *)



Lemma star_spec (k : string -> bool) (n : string) :
  star k n = true <-> exists stem rest, n = stem ++ rest /\ k rest = true.
Proof.
  induction n as [|c n IH]; simpl.
  - rewrite orb_false_r. split.
    + intros H. exists "", "". auto.
    + intros [stem [rest [E H]]].
      destruct stem; [|discriminate]. simpl in E. subst rest. exact H.
  - rewrite orb_true_iff, IH. split.
    + intros [H|[stem [rest [E H]]]].
      * exists "", (String c n). auto.
      * exists (String c stem), rest. subst n. auto.
    + intros [stem [rest [E H]]]. destruct stem as [|c' stem]; simpl in E.
      * left. subst rest. exact H.
      * right. inversion E. subst. eauto.
Qed.

Lemma fnmatch_plain (pat : string) :
  plain pat = true -> forall n, fnmatch pat n = String.eqb pat n.
Proof.
  induction pat as [|c pat IH]; simpl; intros H n.
  - destruct n; reflexivity.
  - apply andb_prop in H. destruct H as [Hc Hp].
    apply negb_true_iff in Hc. rewrite Hc.
    destruct n as [|d n]; [reflexivity|]. rewrite (IH Hp). reflexivity.
Qed.

Lemma fnmatch_star_plain (pat n : string) :
  plain pat = true ->
  fnmatch (String "*" pat) n = true <-> ends_with pat n.
Proof.
  intros H. simpl. rewrite star_spec. unfold ends_with. split.
  - intros [stem [rest [E Hm]]]. rewrite (fnmatch_plain _ H) in Hm.
    apply String.eqb_eq in Hm. subst. eauto.
  - intros [stem E]. exists stem, pat. split; [exact E|].
    rewrite (fnmatch_plain _ H). apply String.eqb_refl.
Qed.

Lemma glob_spec (os : platform) (folder : string) (entries : list string)
  (pat : string) (photo : Path) :
  In photo (glob os folder entries pat) <->
  parent photo = folder /\ In (name photo) entries /\
  fnmatch (casefold os pat) (casefold os (name photo)) = true.
Proof.
  unfold glob. rewrite in_map_iff. split.
  - intros [n [E Hin]]. apply filter_In in Hin. subst photo. simpl. tauto.
  - intros [Hp [Hin Hm]]. exists (name photo). split.
    + destruct photo. simpl in *. subst. reflexivity.
    + apply filter_In. auto.
Qed.

Lemma photos_of_spec (os : platform) (folder : string) (entries : list string)
  (photo : Path) :
  In photo (photos_of os folder entries) <->
  parent photo = folder /\ In (name photo) entries /\
  image_name (casefold os (name photo)).
Proof.
  unfold photos_of, image_name. rewrite !in_app_iff, !glob_spec.
  assert (Hc : forall pat, plain pat = true -> lowercase (String "*" pat) = String "*" (lowercase pat))
    by reflexivity.
  assert (Hf : forall ext, plain ext = true -> lowercase ext = ext ->
               forall n, fnmatch (casefold os (String "*" ext)) n = true <-> ends_with ext n).
  { intros ext Hp Hl n. destruct os; simpl casefold.
    - apply fnmatch_star_plain, Hp.
    - rewrite Hl. apply fnmatch_star_plain, Hp. }
  rewrite (Hf ".jpg"), (Hf ".jpeg"), (Hf ".png") by reflexivity.
  tauto.
Qed.

Section Processed.

Variable json_loads : string -> option json.
Variable datetime_of_other : json -> result (option Timestamp).

Lemma record_of_FileName (photo : Path) (metadata : json) (r : ImageRecord) :
  record_of datetime_of_other photo metadata = Ok r -> FileName r = name photo.
Proof.
  unfold record_of.
  repeat match goal with
         | |- match ?x with _ => _ end = _ -> _ => destruct x; try discriminate
         end.
  intros H. inversion H. reflexivity.
Qed.



End Processed.




(** On POSIX the names in upper case are not among the files found. *)
Example photos_of_mixed_case :
  photos_of Posix "photos"
            ["a.jpg"; "IMG_1.JPG"; "scan.PNG"; "b.jpeg"; "c.png"; "notes.txt"]
  = [mkPath "photos" "a.jpg"; mkPath "photos" "b.jpeg"; mkPath "photos" "c.png"].
Proof. vm_compute. reflexivity. Qed.

(* ================================================================= *)
(** * Further properties of the code *)

(* ================================================================= *)
(** ** The files found, once each *)

Lemma penultimate_app (a b : string) :
  (2 <= String.length b)%nat -> penultimate (a ++ b) = penultimate b.
Proof.
  intros Hb. induction a as [|c a IH]; [reflexivity|].
  change (String c a ++ b) with (String c (a ++ b)).
  destruct (a ++ b) as [|x [|y t]] eqn:E.
  - destruct a; simpl in E; [subst b; simpl in Hb; lia|discriminate].
  - destruct a as [|a0 a]; simpl in E.
    + subst b. simpl in Hb. lia.
    + inversion E. destruct a; simpl in *; [subst b; simpl in Hb; lia|discriminate].
  - rewrite <- IH. reflexivity.
Qed.

Lemma casefold_patterns (os : platform) :
  casefold os "*.jpg" = "*.jpg" /\ casefold os "*.jpeg" = "*.jpeg" /\
  casefold os "*.png" = "*.png".
Proof. destruct os; repeat split; reflexivity. Qed.

Lemma fnmatch_penultimate (ext m : string) :
  plain ext = true -> (2 <= String.length ext)%nat ->
  fnmatch (String "*" ext) m = true -> penultimate m = penultimate ext.
Proof.
  intros Hp Hl H. apply fnmatch_star_plain in H; [|exact Hp].
  destruct H as [stem ->]. apply penultimate_app, Hl.
Qed.

(** No name matches two of the three patterns. *)
Lemma patterns_disjoint (os : platform) (n : string) :
  (fnmatch (casefold os "*.jpg") (casefold os n) = true ->
   fnmatch (casefold os "*.jpeg") (casefold os n) = false /\
   fnmatch (casefold os "*.png") (casefold os n) = false) /\
  (fnmatch (casefold os "*.jpeg") (casefold os n) = true ->
   fnmatch (casefold os "*.png") (casefold os n) = false).
Proof.
  destruct (casefold_patterns os) as [-> [-> ->]].
  set (m := casefold os n).
  assert (J : fnmatch "*.jpg" m = true -> penultimate m = Some "p"%char)
    by (apply fnmatch_penultimate; [reflexivity|simpl; lia]).
  assert (E : fnmatch "*.jpeg" m = true -> penultimate m = Some "e"%char)
    by (apply fnmatch_penultimate; [reflexivity|simpl; lia]).
  assert (P : fnmatch "*.png" m = true -> penultimate m = Some "n"%char)
    by (apply fnmatch_penultimate; [reflexivity|simpl; lia]).
  destruct (fnmatch "*.jpg" m), (fnmatch "*.jpeg" m), (fnmatch "*.png" m);
    repeat split; intros; try reflexivity; try discriminate;
    repeat match goal with H : true = true -> _ |- _ => specialize (H eq_refl) end;
    congruence.
Qed.

Lemma filter_three {A : Type} (p q r : A -> bool) (l : list A) :
  (forall x, p x = true -> q x = false /\ r x = false) ->
  (forall x, q x = true -> r x = false) ->
  Permutation (filter p l ++ filter q l ++ filter r l)
              (filter (fun x => p x || q x || r x) l).
Proof.
  intros Hp Hq. induction l as [|a l IH]; [apply perm_nil|].
  simpl. destruct (p a) eqn:Ep.
  - destruct (Hp a Ep) as [-> ->]. simpl. apply perm_skip, IH.
  - destruct (q a) eqn:Eq.
    + rewrite (Hq a Eq). simpl.
      apply Permutation_sym, Permutation_cons_app, Permutation_sym, IH.
    + destruct (r a) eqn:Er; simpl; [|exact IH].
      rewrite app_assoc. apply Permutation_sym, Permutation_cons_app.
      rewrite <- app_assoc. apply Permutation_sym, IH.
Qed.

Lemma photos_of_names (os : platform) (folder : string) (entries : list string) :
  Permutation (map name (photos_of os folder entries)) (filter (is_image os) entries).
Proof.
  unfold photos_of, glob. rewrite !map_app, !map_map. simpl. rewrite !map_id.
  apply filter_three.
  - intros n. apply (proj1 (patterns_disjoint os n)).
  - intros n. apply (proj2 (patterns_disjoint os n)).
Qed.

Lemma photos_of_parent (os : platform) (folder : string) (entries : list string) :
  photos_of os folder entries = map (mkPath folder) (map name (photos_of os folder entries)).
Proof.
  unfold photos_of, glob. rewrite !map_app, !map_map. simpl. reflexivity.
Qed.

Lemma NoDup_map_injective {A B : Type} (f : A -> B) (l : list A) :
  (forall a b, f a = f b -> a = b) -> NoDup l -> NoDup (map f l).
Proof.
  intros Hf. induction 1 as [|a l Hin Hn IH]; simpl; constructor; [|exact IH].
  intros H. apply in_map_iff in H. destruct H as [b [E Hb]].
  apply Hf in E. subst b. exact (Hin Hb).
Qed.

(** X1: the three [glob] calls of line 39 never find a file twice. The
    names found are, up to order, the entries of the folder that one of the
    three patterns matches, each as often as the folder lists it; so there
    are no more files than entries, and none is repeated when no entry
    is. *)
Theorem photos_found_once (os : platform) (folder : string) (entries : list string) :
  Permutation (map name (photos_of os folder entries)) (filter (is_image os) entries) /\
  (List.length (photos_of os folder entries) <= List.length entries)%nat /\
  (NoDup entries -> NoDup (photos_of os folder entries)).
Proof.
  pose proof (photos_of_names os folder entries) as P.
  split; [exact P|]. split.
  - rewrite <- (length_map name), (Permutation_length P). apply filter_length_le.
  - intros Hn. rewrite photos_of_parent.
    apply NoDup_map_injective.
    + intros a b H. inversion H. reflexivity.
    + apply (Permutation_NoDup (Permutation_sym P)). apply NoDup_filter, Hn.
Qed.

Lemma photos_found_once_witness :
  NoDup (photos_of Posix "photos" ["a.jpg"; "b.jpeg"; "c.png"; "notes.txt"]).
Proof.
  apply (proj2 (proj2 (photos_found_once Posix "photos"
                         ["a.jpg"; "b.jpeg"; "c.png"; "notes.txt"]))).
  repeat constructor; simpl; intuition discriminate.
Defined.

(* ================================================================= *)
(** ** The loop, file by file *)

Section Runs.

Variable json_loads : string -> option json.
Variable datetime_of_other : json -> result (option Timestamp).


Lemma loop_body_events (w : World) (photo : Path) (data : list ImageRecord) :
  events (loop_body json_loads datetime_of_other w photo data) = [tool_run w photo].
Proof.
  destruct (first_object json_loads (stdout (run w (exiftool_argv (os w) photo))))
    as [metadata|] eqn:E.
  - rewrite (loop_body_record _ _ _ _ _ _ E). reflexivity.
  - rewrite (loop_body_skip _ _ _ _ _ E). reflexivity.
Qed.

Lemma loop_body_outcome (w : World) (photo : Path) (data : list ImageRecord) :
  outcome (loop_body json_loads datetime_of_other w photo data) =
  match first_object json_loads (stdout (run w (exiftool_argv (os w) photo))) with
  | None => Ok data
  | Some metadata =>
      match record_of datetime_of_other photo metadata with
      | Ok r => Ok (data ++ [r])%list
      | Raise e => Raise e
      end
  end.
Proof.
  destruct (first_object json_loads (stdout (run w (exiftool_argv (os w) photo))))
    as [metadata|] eqn:E.
  - rewrite (loop_body_record _ _ _ _ _ _ E). reflexivity.
  - rewrite (loop_body_skip _ _ _ _ _ E). reflexivity.
Qed.

Lemma extract_loop_ok_events (w : World) (photos : list Path) :
  forall data data',
    outcome (extract_loop json_loads datetime_of_other w photos data) = Ok data' ->
    events (extract_loop json_loads datetime_of_other w photos data) = map (tool_run w) photos.
Proof.
  induction photos as [|photo photos IH]; intros data data' H; [reflexivity|].
  simpl in *. rewrite outcome_bind in H. rewrite events_bind.
  rewrite loop_body_events.
  destruct (outcome (loop_body json_loads datetime_of_other w photo data)) as [d|e]; [|discriminate].
  simpl. f_equal. eapply IH. exact H.
Qed.

Lemma extract_loop_ok_names (w : World) (photos : list Path) :
  forall data data',
    outcome (extract_loop json_loads datetime_of_other w photos data) = Ok data' ->
    map FileName data'
    = (map FileName data ++ map name (filter (decodes json_loads w) photos))%list.
Proof.
  induction photos as [|photo photos IH]; intros data data' H.
  - inversion H. simpl. rewrite app_nil_r. reflexivity.
  - simpl in H. rewrite outcome_bind in H.
    rewrite loop_body_outcome in H.
    simpl filter. unfold decodes at 1.
    destruct (first_object json_loads (stdout (run w (exiftool_argv (os w) photo))))
      as [metadata|].
    + destruct (record_of datetime_of_other photo metadata) as [r|e] eqn:Er;
        [|discriminate].
      rewrite (IH _ _ H), map_app. simpl.
      rewrite (record_of_FileName _ _ _ _ Er), <- app_assoc. reflexivity.
    + apply (IH _ _ H).
Qed.


End Runs.

(* ================================================================= *)
(** ** Records and runs of a call *)

(** X2: when [extract_metadata] returns, the records are those of the
    files whose output got past the [try], one record per such file, in the
    order in which the files were found: the file names of the result are
    the names of these files. So there are never more records than
    files. *)
Theorem records_follow_files
  (json_loads : string -> option json)
  (datetime_of_other : json -> result (option Timestamp))
  (w : World) (folder_path tool : string) (entries : list string)
  (data : list ImageRecord) :
  which w "exiftool" = Some tool ->
  fs w folder_path = Dir entries ->
  outcome (extract_metadata json_loads datetime_of_other w folder_path) = Ok data ->
  map FileName data
  = map name (filter (decodes json_loads w) (photos_of (os w) folder_path entries)) /\
  (List.length data <= List.length (photos_of (os w) folder_path entries))%nat.
Proof.
  intros Hw Hd H.
  assert (E : map FileName data
              = map name (filter (decodes json_loads w)
                                 (photos_of (os w) folder_path entries))).
  { rewrite (extract_dir _ _ _ _ _ _ Hw Hd) in H.
    destruct (photos_of (os w) folder_path entries) as [|p l] eqn:Ep.
    - inversion H. reflexivity.
    - apply (extract_loop_ok_names _ _ _ _ _ _ H). }
  split; [exact E|].
  rewrite <- (length_map FileName), E, length_map. apply filter_length_le.
Qed.

Lemma records_follow_files_witness :
  exists data,
    outcome (extract_metadata JsonText.loads (fun _ => Ok None) world_two_images "photos")
    = Ok data /\
    map FileName data = ["a.jpg"].
Proof.
  eexists. split; [exact extract_two_images|].
  rewrite (proj1 (records_follow_files JsonText.loads (fun _ => Ok None) world_two_images
                    "photos" "/usr/bin/exiftool" ["a.jpg"; "b.jpg"] _
                    eq_refl eq_refl extract_two_images)).
  vm_compute. reflexivity.
Defined.

(** X3: when [extract_metadata] returns, the tool has been run once on
    every file found, in the order in which the files were found, and
    nothing else has happened; with no file found the only event is the
    diagnostic. *)
Theorem tool_runs_every_file
  (json_loads : string -> option json)
  (datetime_of_other : json -> result (option Timestamp))
  (w : World) (folder_path tool : string) (entries : list string)
  (data : list ImageRecord) :
  which w "exiftool" = Some tool ->
  fs w folder_path = Dir entries ->
  outcome (extract_metadata json_loads datetime_of_other w folder_path) = Ok data ->
  events (extract_metadata json_loads datetime_of_other w folder_path)
  = match photos_of (os w) folder_path entries with
    | [] => [Print "Ve složce nejsou žádné obrázky."]
    | photos => map (tool_run w) photos
    end.
Proof.
  intros Hw Hd H. rewrite (extract_dir _ _ _ _ _ _ Hw Hd) in *.
  destruct (photos_of (os w) folder_path entries) as [|p l] eqn:Ep; [reflexivity|].
  apply (extract_loop_ok_events _ _ _ _ _ _ H).
Qed.

Lemma tool_runs_every_file_witness :
  events (extract_metadata JsonText.loads (fun _ => Ok None) world_two_images "photos")
  = [ tool_run world_two_images (mkPath "photos" "a.jpg");
      tool_run world_two_images (mkPath "photos" "b.jpg") ].
Proof.
  exact (tool_runs_every_file JsonText.loads (fun _ => Ok None) world_two_images
           "photos" "/usr/bin/exiftool" ["a.jpg"; "b.jpg"] _
           eq_refl eq_refl extract_two_images).
Defined.



(** X5: when the first element of the output of the tool is not an object
    (a number, a string, [null], a list; or the one-character string
    [json.loads(text)[0]] is for a JSON string), [metadata.get] raises
    [AttributeError] outside the [try]: the turn of the loop ends the
    call, whatever files come after. *)
Theorem non_object_raises
  (json_loads : string -> option json)
  (datetime_of_other : json -> result (option Timestamp))
  (w : World) (photo : Path) (metadata : json) :
  first_object json_loads (stdout (run w (exiftool_argv (os w) photo))) = Some metadata ->
  (forall d, metadata <> JDict d) ->
  forall after data,
    extract_loop json_loads datetime_of_other w (photo :: after) data
    = ([tool_run w photo], Raise AttributeError).
Proof.
  intros Hf Hd after data. simpl.
  rewrite (loop_body_record _ _ _ _ _ _ Hf).
  destruct metadata; try reflexivity. exfalso. exact (Hd d eq_refl).
Qed.

Lemma non_object_raises_witness :
  extract_loop JsonText.loads (fun _ => Ok None) world_null_element
               [mkPath "photos" "a.jpg"; mkPath "photos" "b.jpg"] []
  = ([tool_run world_null_element (mkPath "photos" "a.jpg")], Raise AttributeError).
Proof.
  apply (non_object_raises JsonText.loads (fun _ => Ok None) world_null_element
           (mkPath "photos" "a.jpg") JNone).
  - vm_compute. reflexivity.
  - discriminate.
Defined.

Section ExitStatus.

Variable json_loads : string -> option json.
Variable datetime_of_other : json -> result (option Timestamp).


End ExitStatus.



(* ================================================================= *)
(** ** Missing keys *)

(** X7: an object with none of the four keys gives the record of nulls
    with the marker [N/A] and raises nothing; and the focal length of a
    record is the value of the key as the tool gave it, of whatever type
    ([null] stays [None]), the marker standing for an absent key only. *)
Theorem missing_keys
  (datetime_of_other : json -> result (option Timestamp))
  (photo : Path) (d : list (string * json)) :
  (assoc "DateTimeOriginal" d = None ->
   assoc "FocalLength" d = None ->
   assoc "ImageTemperatureMax" d = None ->
   assoc "ImageTemperatureMin" d = None ->
   record_of datetime_of_other photo (JDict d)
   = Ok (mkRecord (name photo) None (JStr "N/A") None None)) /\
  (forall r,
      record_of datetime_of_other photo (JDict d) = Ok r ->
      FocalLength r = match assoc "FocalLength" d with
                      | Some v => v
                      | None => JStr "N/A"
                      end).
Proof.
  split.
  - intros H1 H2 H3 H4. rewrite record_of_dict. unfold lookup.
    rewrite H1, H2, H3, H4. reflexivity.
  - intros r H. rewrite record_of_dict in H.
    destruct (to_naive_datetime _ _); [|discriminate].
    destruct (kelvin_to_celsius (lookup d "ImageTemperatureMax" JNone)); [|discriminate].
    destruct (kelvin_to_celsius (lookup d "ImageTemperatureMin" JNone)); [|discriminate].
    inversion H. reflexivity.
Qed.

Lemma missing_keys_witness :
  record_of (fun _ => Ok None) (mkPath "photos" "a.jpg")
            (JDict [("SourceFile", JStr "photos/a.jpg")])
  = Ok (mkRecord "a.jpg" None (JStr "N/A") None None).
Proof.
  apply (proj1 (missing_keys (fun _ => Ok None) (mkPath "photos" "a.jpg")
                  [("SourceFile", JStr "photos/a.jpg")])); reflexivity.
Defined.

(* ================================================================= *)
(** ** Timestamps given as text *)




(* ================================================================= *)
(** ** The plot of a list that is not empty *)

Lemma plot_temperatures_plot_of (data : list ImageRecord) :
  data <> [] -> plot_temperatures data = plot_of (plotted data).
Proof.
  intros H. destruct (plot_temperatures_series data H) as [_ [_ E]].
  rewrite E. unfold plot_of. destruct (plotted data); reflexivity.
Qed.

Lemma plotted_In (data : list ImageRecord) (r : ImageRecord) :
  In r (plotted data) <-> In r data /\ complete r = true.
Proof.
  unfold plotted. rewrite <- filter_In. split; apply Permutation_in.
  - apply sort_rows_perm.
  - apply Permutation_sym, sort_rows_perm.
Qed.

(** X9: for a list that is not empty [plot_temperatures] raises nothing,
    and the rows it works on are the records of the list in which the
    capture time and both temperatures are not null, each as often as the
    list has it, in ascending order of capture time. With no such record it
    prints the diagnostic; otherwise it draws the two temperatures against
    the capture times of these rows, saves the figure and shows it. *)
Theorem plot_shows_complete_records (data : list ImageRecord) :
  data <> [] ->
  exists shown,
    plot_temperatures data = plot_of shown /\
    Permutation shown (filter complete data) /\
    Sorted time_le shown /\
    (forall r, In r shown <->
               In r data /\ (exists t, DateTime r = Some t)
               /\ known (TempMax r) /\ known (TempMin r)).
Proof.
  intros H. exists (plotted data).
  split; [apply plot_temperatures_plot_of, H|].
  split; [apply sort_rows_perm|]. split; [apply sort_rows_sorted|].
  intros r. rewrite plotted_In, complete_spec. tauto.
Qed.

Lemma plot_shows_complete_records_witness :
  exists shown,
    plot_temperatures [record_at_10; record_of_nulls; record_at_09] = plot_of shown /\
    Permutation shown (filter complete [record_at_10; record_of_nulls; record_at_09]) /\
    Sorted time_le shown /\
    (forall r, In r shown <->
               In r [record_at_10; record_of_nulls; record_at_09]
               /\ (exists t, DateTime r = Some t)
               /\ known (TempMax r) /\ known (TempMin r)).
Proof.
  apply (plot_shows_complete_records [record_at_10; record_of_nulls; record_at_09]).
  discriminate.
Defined.

(** X10: for a list that is not empty, [plot_temperatures] saves the
    figure exactly when some record of the list has a capture time and both
    temperatures, and prints the diagnostic exactly when none has; it does
    one or the other. *)
Theorem plot_saved_iff_complete (data : list ImageRecord) :
  data <> [] ->
  outcome (plot_temperatures data) = Ok tt /\
  (In (PltSavefig "temperature_plot.jpg") (events (plot_temperatures data)) <->
   exists r, In r data /\ complete r = true) /\
  (In (Print "Žádná platná data pro vykreslení grafu.") (events (plot_temperatures data)) <->
   forall r, In r data -> complete r = false).
Proof.
  intros H. rewrite (plot_temperatures_plot_of data H).
  pose proof (plotted_In data) as Hin.
  destruct (plotted data) as [|a shown] eqn:E; simpl.
  - split; [reflexivity|]. split.
    + split.
      * intros [F|[]]. discriminate F.
      * intros [r Hr]. apply Hin in Hr. destruct Hr.
    + split; [|auto]. intros _ r Hr.
      destruct (complete r) eqn:Ec; [|reflexivity].
      exfalso. apply (proj2 (Hin r)). auto.
  - split; [reflexivity|]. split.
    + split; [|auto]. intros _. exists a. apply Hin. left. reflexivity.
    + split.
      * intros [F|[F|[F|[F|[]]]]]; discriminate F.
      * intros Hall. assert (Ha : In a data /\ complete a = true)
          by (apply Hin; left; reflexivity).
        destruct Ha as [Ha Hc]. rewrite (Hall a Ha) in Hc. discriminate.
Qed.

Lemma plot_saved_iff_complete_witness :
  In (Print "Žádná platná data pro vykreslení grafu.")
     (events (plot_temperatures [record_of_nulls])).
Proof.
  apply (proj2 (proj2 (proj2 (plot_saved_iff_complete [record_of_nulls]
                                ltac:(discriminate))))).
  intros r [<-|[]]. reflexivity.
Defined.

(* ================================================================= *)
(** ** The plot does not depend on the order of the records *)

Lemma time_le_instant (a b : ImageRecord) :
  time_le a b <-> instant_le (instant a) (instant b).
Proof.
  unfold time_le, time_leb, instant, instant_le.
  destruct (DateTime a), (DateTime b); simpl; try tauto.
  - apply Z.leb_le.
  - split; [discriminate|tauto].
Qed.

Lemma instant_le_trans (a b c : option Z) :
  instant_le a b -> instant_le b c -> instant_le a c.
Proof.
  destruct a, b, c; simpl; try tauto; lia.
Qed.

Lemma instant_le_antisym (a b : option Z) :
  instant_le a b -> instant_le b a -> a = b.
Proof.
  destruct a, b; simpl; try tauto. intros. f_equal. lia.
Qed.

Lemma sorted_instants (l : list ImageRecord) :
  Sorted time_le l -> StronglySorted instant_le (map instant l).
Proof.
  intros H. apply Sorted_StronglySorted.
  - intros a b c. apply instant_le_trans.
  - induction H as [|a l Hs IH Hd]; simpl; constructor; [exact IH|].
    destruct Hd as [|b l Hab]; simpl; constructor.
    apply time_le_instant, Hab.
Qed.

Lemma strongly_sorted_unique (k1 : list (option Z)) :
  forall k2,
    StronglySorted instant_le k1 -> StronglySorted instant_le k2 ->
    Permutation k1 k2 -> k1 = k2.
Proof.
  induction k1 as [|a k1 IH]; intros k2 H1 H2 P.
  - apply Permutation_nil in P. subst. reflexivity.
  - destruct k2 as [|b k2]; [apply Permutation_sym, Permutation_nil in P; discriminate|].
    inversion H1 as [|? ? S1 F1]. inversion H2 as [|? ? S2 F2]. subst.
    assert (Hab : a = b).
    { rewrite Forall_forall in F1, F2.
      assert (Hb : In b (a :: k1))
        by (apply (Permutation_in _ (Permutation_sym P)); left; reflexivity).
      assert (Ha : In a (b :: k2)) by (apply (Permutation_in _ P); left; reflexivity).
      destruct Hb as [Hb|Hb]; [exact Hb|].
      destruct Ha as [Ha|Ha]; [exact (eq_sym Ha)|].
      apply instant_le_antisym; auto. }
    subst b. f_equal. apply IH; auto. eapply Permutation_cons_inv. exact P.
Qed.

Lemma filter_perm {A : Type} (p : A -> bool) (l l' : list A) :
  Permutation l l' -> Permutation (filter p l) (filter p l').
Proof.
  induction 1 as [|x l l' _ IH|x y l|l l' l'' _ IH1 _ IH2]; simpl.
  - apply perm_nil.
  - destruct (p x); [apply perm_skip|]; exact IH.
  - destruct (p x), (p y); try apply Permutation_refl. apply perm_swap.
  - eapply perm_trans; eauto.
Qed.

Lemma plotted_perm (data data' : list ImageRecord) :
  Permutation data data' -> Permutation (plotted data) (plotted data').
Proof.
  intros P. unfold plotted.
  eapply perm_trans; [apply sort_rows_perm|].
  eapply perm_trans; [apply filter_perm, P|].
  apply Permutation_sym, sort_rows_perm.
Qed.

(** X11: the plot does not depend on the order of the list: two lists
    with the same records, in any order, give plots of the same rows whose
    capture times, read along the time axis, are the same sequence of
    instants. *)
Theorem plot_order_independent (data data' : list ImageRecord) :
  data <> [] ->
  Permutation data data' ->
  exists shown shown',
    plot_temperatures data = plot_of shown /\
    plot_temperatures data' = plot_of shown' /\
    Permutation shown shown' /\
    map instant shown = map instant shown'.
Proof.
  intros H P. exists (plotted data), (plotted data').
  assert (H' : data' <> []).
  { intros ->. apply Permutation_sym, Permutation_nil in P. exact (H P). }
  split; [apply plot_temperatures_plot_of, H|].
  split; [apply plot_temperatures_plot_of, H'|].
  pose proof (plotted_perm _ _ P) as PP. split; [exact PP|].
  apply strongly_sorted_unique.
  - apply sorted_instants, sort_rows_sorted.
  - apply sorted_instants, sort_rows_sorted.
  - apply Permutation_map, PP.
Qed.

Lemma plot_order_independent_witness :
  exists shown shown',
    plot_temperatures [record_at_10; record_of_nulls; record_at_09] = plot_of shown /\
    plot_temperatures [record_at_09; record_at_10; record_of_nulls] = plot_of shown' /\
    Permutation shown shown' /\
    map instant shown = map instant shown'.
Proof.
  apply (plot_order_independent [record_at_10; record_of_nulls; record_at_09]
                                [record_at_09; record_at_10; record_of_nulls]).
  - discriminate.
  - apply perm_trans with [record_at_10; record_at_09; record_of_nulls].
    + apply perm_skip, perm_swap.
    + apply perm_swap.
Defined.

(* ================================================================= *)
(** ** The entry point *)

Section Entry.

Variable json_loads : string -> option json.
Variable datetime_of_other : json -> result (option Timestamp).

Lemma extract_loop_only_runs (w : World) (photos : list Path) :
  forall data ev,
    In ev (events (extract_loop json_loads datetime_of_other w photos data)) ->
    exists photo, ev = tool_run w photo.
Proof.
  induction photos as [|photo photos IH]; intros data ev H; [destruct H|].
  simpl in H. rewrite events_bind, loop_body_events in H.
  destruct (outcome (loop_body json_loads datetime_of_other w photo data)) as [d|e].
  - destruct H as [H|H]; [eauto|]. apply (IH _ _ H).
  - destruct H as [H|[]]. eauto.
Qed.

Lemma extract_metadata_events (w : World) (folder : string) (ev : event) :
  In ev (events (extract_metadata json_loads datetime_of_other w folder)) ->
  ev = Print "Ve složce nejsou žádné obrázky." \/ exists photo, ev = tool_run w photo.
Proof.
  unfold extract_metadata.
  destruct (which w "exiftool"); [|intros []].
  destruct (fs w folder) as [| |entries]; try (intros []).
  destruct (photos_of (os w) folder entries) as [|p l].
  - intros [H|[]]. auto.
  - intros H. right. apply (extract_loop_only_runs _ _ _ _ H).
Qed.

Lemma main_cases (w : World) (folder output_excel : string) :
  main json_loads datetime_of_other w folder output_excel =
  let m := extract_metadata json_loads datetime_of_other w folder in
  match outcome m with
  | Raise e => (events m, Raise e)
  | Ok [] => (events m, Ok tt)
  | Ok data =>
      ((events m ++ events (plot_temperatures data)
        ++ [ToExcel output_excel report_columns (map report_row data);
            Print ("Data byla uložena do " ++ output_excel)])%list, Ok tt)
  end.
Proof.
  unfold main. cbv zeta.
  destruct (extract_metadata json_loads datetime_of_other w folder) as [l [data|e]];
    [|reflexivity].
  destruct data as [|r data']; simpl; [rewrite app_nil_r; reflexivity|].
  assert (Hne : r :: data' <> []) by discriminate.
  pose proof (plot_temperatures_plot_of _ Hne) as Hp.
  destruct (plot_temperatures (r :: data')) as [lp rp].
  assert (rp = Ok tt) as ->.
  { unfold plot_of in Hp. destruct (plotted (r :: data')); inversion Hp; reflexivity. }
  reflexivity.
Qed.

End Entry.

(** X12: when the extraction returns at least one record, the entry point
    plots and then writes the report, and ends without an exception: after
    the runs of the tool come the events of the plot and then the one
    spreadsheet, with a row for every record extracted, whether or not the
    plot had anything to show. *)
Theorem main_plots_then_saves
  (json_loads : string -> option json)
  (datetime_of_other : json -> result (option Timestamp))
  (w : World) (folder output_excel : string) (data : list ImageRecord) :
  outcome (extract_metadata json_loads datetime_of_other w folder) = Ok data ->
  data <> [] ->
  main json_loads datetime_of_other w folder output_excel
  = ((events (extract_metadata json_loads datetime_of_other w folder)
      ++ events (plot_temperatures data)
      ++ [ToExcel output_excel report_columns (map report_row data);
          Print ("Data byla uložena do " ++ output_excel)])%list, Ok tt) /\
  List.length (map report_row data) = List.length data.
Proof.
  intros H Hne. split; [|apply length_map].
  rewrite main_cases. cbv zeta. rewrite H.
  destruct data; [congruence|reflexivity].
Qed.

Lemma main_plots_then_saves_witness :
  exists r,
    main JsonText.loads (fun _ => Ok None) world_two_images "photos" "metadata.xlsx"
    = ((events (extract_metadata JsonText.loads (fun _ => Ok None) world_two_images "photos")
        ++ events (plot_temperatures [r])
        ++ [ToExcel "metadata.xlsx" report_columns (map report_row [r]);
            Print ("Data byla uložena do " ++ "metadata.xlsx")])%list, Ok tt).
Proof.
  eexists.
  apply (proj1 (main_plots_then_saves JsonText.loads (fun _ => Ok None) world_two_images
                  "photos" "metadata.xlsx" _ extract_two_images ltac:(discriminate))).
Defined.

(** X13: the entry point raises only what the extraction raises, and then
    nothing is plotted and no report is written, whatever records had been
    built; the guard on the list keeps [save_to_excel] from the empty list,
    so its diagnostic is never printed by the script. *)
Theorem main_fails_only_in_extract
  (json_loads : string -> option json)
  (datetime_of_other : json -> result (option Timestamp))
  (w : World) (folder output_excel : string) :
  (forall e,
      outcome (main json_loads datetime_of_other w folder output_excel) = Raise e ->
      outcome (extract_metadata json_loads datetime_of_other w folder) = Raise e) /\
  (forall e,
      outcome (extract_metadata json_loads datetime_of_other w folder) = Raise e ->
      main json_loads datetime_of_other w folder output_excel
      = (events (extract_metadata json_loads datetime_of_other w folder), Raise e)) /\
  ~ In (Print "Žádná data k uložení.")
       (events (main json_loads datetime_of_other w folder output_excel)).
Proof.
  rewrite main_cases. cbv zeta.
  pose proof (extract_metadata_events json_loads datetime_of_other w folder) as Hev.
  destruct (outcome (extract_metadata json_loads datetime_of_other w folder))
    as [data|e0] eqn:E.
  - assert (Hx : ~ In (Print "Žádná data k uložení.")
                      (events (extract_metadata json_loads datetime_of_other w folder))).
    { intros H. destruct (Hev _ H) as [F|[p F]]; discriminate F. }
    destruct data as [|r data'].
    + split; [discriminate|]. split; [discriminate|exact Hx].
    + split; [discriminate|]. split; [discriminate|].
      simpl. intros H. apply in_app_or in H. destruct H as [H|H]; [exact (Hx H)|].
      apply in_app_or in H. destruct H as [H|H].
      * rewrite plot_temperatures_plot_of in H by discriminate.
        unfold plot_of in H. destruct (plotted (r :: data')); simpl in H;
          repeat (destruct H as [H|H]; [discriminate H|]); exact H.
      * repeat (destruct H as [H|H]; [discriminate H|]). exact H.
  - split; [intros e H; simpl in H; inversion H; reflexivity|]. split.
    + intros e H. inversion H. reflexivity.
    + simpl. intros H. destruct (Hev _ H) as [F|[p F]]; discriminate F.
Qed.

Lemma main_fails_only_in_extract_witness :
  main JsonText.loads (fun _ => Ok None) world_null_element "photos" "metadata.xlsx"
  = (events (extract_metadata JsonText.loads (fun _ => Ok None) world_null_element "photos"),
     Raise AttributeError).
Proof.
  apply (proj1 (proj2 (main_fails_only_in_extract JsonText.loads (fun _ => Ok None)
                         world_null_element "photos" "metadata.xlsx"))).
  vm_compute. reflexivity.
Defined.

(* ================================================================= *)
(** ** The conversion is exact on readings with two decimals *)

Lemma float_eqb_eq (x y : float) : float_eqb x y = true -> x = y.
Proof.
  destruct x as [a|a| |a m e], y as [b|b| |b n f]; simpl; try discriminate.
  - intros H. apply Bool.eqb_prop in H. congruence.
  - intros H. apply Bool.eqb_prop in H. congruence.
  - reflexivity.
  - intros H. apply andb_prop in H. destruct H as [H He].
    apply andb_prop in H. destruct H as [Hs Hm].
    apply Bool.eqb_prop in Hs. apply Pos.eqb_eq in Hm. apply Z.eqb_eq in He.
    congruence.
Qed.

Lemma centikelvin_range : range_ok centikelvin_ok 20 25000 15001 = true.
Proof. vm_cast_no_check (eq_refl true). Qed.

Lemma kelvin_range : range_ok kelvin_ok 20 0 1001 = true.
Proof. vm_cast_no_check (eq_refl true). Qed.

(** X14: on the readings a camera gives the conversion is exact, the
    rounding to two decimals removing the error of the subtraction in
    binary. For a float that is a decimal with two places from 250.00 K to
    400.00 K, and for an [int] from 0 K to 1000 K, the result is the
    float of the decimal 273.15 less: the value Python writes with the
    digits of the exact difference. *)
Theorem kelvin_to_celsius_exact :
  (forall k, 25000 <= k <= 40000 ->
     kelvin_to_celsius (JFloat (centi k)) = Ok (Some (centi (k - 27315)))) /\
  (forall z, 0 <= z <= 1000 ->
     kelvin_to_celsius (JInt z) = Ok (Some (centi (100 * z - 27315)))).
Proof.
  split.
  - intros k Hk.
    assert (H : centikelvin_ok k = true)
      by (apply (range_ok_spec _ _ _ _ centikelvin_range); lia).
    unfold centikelvin_ok in H.
    destruct (kelvin_to_celsius (JFloat (centi k))) as [[x|]|]; try discriminate.
    apply float_eqb_eq in H. congruence.
  - intros z Hz.
    assert (H : kelvin_ok z = true)
      by (apply (range_ok_spec _ _ _ _ kelvin_range); lia).
    unfold kelvin_ok in H.
    destruct (kelvin_to_celsius (JInt z)) as [[x|]|]; try discriminate.
    apply float_eqb_eq in H. congruence.
Qed.

Lemma kelvin_to_celsius_exact_witness :
  kelvin_to_celsius (JFloat (centi 29565)) = Ok (Some (centi 2250)) /\
  kelvin_to_celsius (JInt 300) = Ok (Some (centi 2685)).
Proof.
  split.
  - apply (proj1 kelvin_to_celsius_exact 29565). lia.
  - apply (proj2 kelvin_to_celsius_exact 300). lia.
Defined.

(* ================================================================= *)
(** ** The conversion makes no NaN *)

Lemma shr_1_nonneg (mrs : shr_record) : 0 <= shr_m mrs -> 0 <= shr_m (shr_1 mrs).
Proof.
  destruct mrs as [m r s]. simpl. destruct m as [|p|p]; [simpl; lia| |lia].
  intros _. destruct p; simpl; lia.
Qed.

Lemma iter_pos_nonneg (p : positive) :
  forall mrs, 0 <= shr_m mrs -> 0 <= shr_m (iter_pos shr_1 p mrs).
Proof.
  induction p as [p IH|p IH|]; intros mrs H; simpl.
  - apply IH, IH, shr_1_nonneg, H.
  - apply IH, IH, H.
  - apply shr_1_nonneg, H.
Qed.

Lemma shr_fexp_nonneg (prec emax m e : Z) (l : location) :
  0 <= m -> 0 <= shr_m (fst (shr_fexp prec emax m e l)).
Proof.
  intros H. unfold shr_fexp, shr.
  assert (H0 : 0 <= shr_m (shr_record_of_loc m l))
    by (destruct l as [|[]]; exact H).
  destruct (fexp prec emax (Zdigits2 m + e) - e); simpl; auto.
  apply iter_pos_nonneg, H0.
Qed.

Lemma round_nearest_even_nonneg (m : Z) (l : location) :
  0 <= m -> 0 <= round_nearest_even m l.
Proof.
  intros H. unfold round_nearest_even.
  destruct l as [|[]]; try lia. destruct (Z.even m); lia.
Qed.

Lemma binary_round_aux_not_nan (prec emax : Z) (sx : bool) (mx ex : Z) (lx : location) :
  0 <= mx -> PyFloat.is_nan (binary_round_aux prec emax sx mx ex lx) = false.
Proof.
  intros H. unfold binary_round_aux.
  pose proof (shr_fexp_nonneg prec emax mx ex lx H) as H1.
  destruct (shr_fexp prec emax mx ex lx) as [mrs' e']. simpl in H1.
  pose proof (shr_fexp_nonneg prec emax _ e' loc_Exact
                (round_nearest_even_nonneg _ (loc_of_shr_record mrs') H1)) as H2.
  destruct (shr_fexp prec emax (round_nearest_even (shr_m mrs') (loc_of_shr_record mrs'))
                     e' loc_Exact) as [mrs'' e''].
  simpl in H2. destruct (shr_m mrs'') as [|p|p]; [reflexivity| |lia].
  destruct (e'' <=? emax - prec); reflexivity.
Qed.

Lemma binary_normalize_not_nan (prec emax m e : Z) (szero : bool) :
  PyFloat.is_nan (binary_normalize prec emax m e szero) = false.
Proof.
  unfold binary_normalize, binary_round.
  destruct m as [|p|p]; [reflexivity| |];
    destruct (shl_align p e _) as [mz ez]; apply binary_round_aux_not_nan; lia.
Qed.

Lemma sub_not_nan (x y : float) :
  PyFloat.is_nan x = false -> PyFloat.is_finite y = true ->
  PyFloat.is_nan (PyFloat.sub x y) = false.
Proof.
  unfold PyFloat.sub, SFsub.
  destruct x as [sx|sx| |sx mx ex], y as [sy|sy| |sy my ey];
    try discriminate; intros _ _; try reflexivity.
  - destruct sx, sy; reflexivity.
  - apply binary_normalize_not_nan.
Qed.

Lemma of_ratio_not_nan (s : bool) (n d : positive) :
  PyFloat.is_nan (PyFloat.of_ratio s n d) = false.
Proof.
  unfold PyFloat.of_ratio, SFdiv.
  destruct (SFdiv_core_binary PyFloat.prec PyFloat.emax (Z.pos n) 0 (Z.pos d) 0)
    as [[mz ez] lz] eqn:E.
  apply binary_round_aux_not_nan.
  unfold SFdiv_core_binary in E.
  match type of E with
  | (let '(q, r) := Z.div_eucl ?m ?d in _) = _ =>
      assert (Hm : 0 <= m); [|pose proof (Z_div_mod m d eq_refl) as Hd;
                               destruct (Z.div_eucl m d) as [q r]]
  end.
  - match goal with |- 0 <= match ?s with _ => _ end => destruct s end;
      try lia. apply Z.shiftl_nonneg. lia.
  - inversion E. subst. nia.
Qed.

Lemma round2_not_nan (x : float) :
  PyFloat.is_nan x = false -> PyFloat.is_nan (PyFloat.round2 x) = false.
Proof.
  destruct x as [s|s| |s m e]; simpl; auto. intros _.
  destruct (PyFloat.scaled_half_even 100 m e); try reflexivity.
  apply of_ratio_not_nan.
Qed.

Lemma of_Z_not_nan (z : Z) : PyFloat.is_nan (PyFloat.of_Z z) = false.
Proof. apply binary_normalize_not_nan. Qed.

(** X15: the conversion returns NaN for the float NaN and for no other
    input: a reading that is a number (an [int], a [bool], a float, the
    infinities included) is never turned into the null that [dropna] would
    take the record out of the plot for. *)
Theorem kelvin_to_celsius_nan (temp : json) (c : float) :
  kelvin_to_celsius temp = Ok (Some c) ->
  (PyFloat.is_nan c = true <-> temp = JFloat S754_nan).
Proof.
  intros H. split.
  - intros Hc.
    assert (Hf : PyFloat.is_finite f273_15 = true) by (vm_compute; reflexivity).
    unfold kelvin_to_celsius in H.
    destruct temp as [|b|z|f|s|l|d]; simpl in H; try discriminate.
    + inversion H. subst c.
      rewrite round2_not_nan in Hc; [discriminate|].
      apply sub_not_nan; [apply of_Z_not_nan|exact Hf].
    + unfold float_of_int in H.
      destruct (PyFloat.is_finite (PyFloat.of_Z z)); [|discriminate].
      inversion H. subst c.
      rewrite round2_not_nan in Hc; [discriminate|].
      apply sub_not_nan; [apply of_Z_not_nan|exact Hf].
    + inversion H. subst c.
      destruct (PyFloat.is_nan f) eqn:En.
      * destruct f; try discriminate. reflexivity.
      * rewrite round2_not_nan in Hc; [discriminate|].
        apply sub_not_nan; [exact En|exact Hf].
  - intros ->. vm_compute in H. inversion H. reflexivity.
Qed.

Lemma kelvin_to_celsius_nan_witness :
  PyFloat.is_nan S754_nan = true <-> JFloat S754_nan = JFloat S754_nan.
Proof.
  apply (kelvin_to_celsius_nan (JFloat S754_nan) S754_nan). reflexivity.
Defined.

(* ================================================================= *)
(** ** What a plotted record needs *)

(** For Python [True] and [False] are the [int]s one and zero: an object
    whose temperatures are JSON booleans gives a record that the plot
    keeps. *)
Example booleans_are_plotted :
  exists r,
    record_of (fun _ => Ok None) (mkPath "photos" "a.jpg")
      (JDict [ ("DateTimeOriginal", JStr "2024:01:01 10:00:00.000+02:00");
               ("ImageTemperatureMax", JBool true);
               ("ImageTemperatureMin", JBool false) ]) = Ok r /\
    TempMax r = Some (centi (-27215)) /\
    TempMin r = Some (centi (-27315)) /\
    complete r = true.
Proof. eexists. repeat split; vm_compute; reflexivity. Qed.

(** X16: a record that the plot keeps comes from an object in which each
    of the two temperature fields is there and is an [int], a [bool]
    (which Python takes as the [int] zero or one) or a float other than
    NaN, and in which the timestamp field is there and, when it is a
    string, is not [now] or [today] and parses. A temperature given as
    text, even the text of a number, is stored as null and keeps the
    record out of the plot, as does [null], a list, an object or an absent
    key. *)
Theorem plotted_needs_numbers
  (datetime_of_other : json -> result (option Timestamp))
  (photo : Path) (d : list (string * json)) (r : ImageRecord) :
  record_of datetime_of_other photo (JDict d) = Ok r ->
  complete r = true ->
  (isinstance_int_float (lookup d "ImageTemperatureMax" JNone) = true /\
   lookup d "ImageTemperatureMax" JNone <> JFloat S754_nan) /\
  (isinstance_int_float (lookup d "ImageTemperatureMin" JNone) = true /\
   lookup d "ImageTemperatureMin" JNone <> JFloat S754_nan) /\
  lookup d "DateTimeOriginal" JNone <> JNone /\
  (forall s, lookup d "DateTimeOriginal" JNone = JStr s ->
             today_now s = false /\ strptime datetime_format s <> None).
Proof.
  intros H Hc. rewrite record_of_dict in H.
  destruct (to_naive_datetime datetime_of_other (lookup d "DateTimeOriginal" JNone))
    as [t|] eqn:Et; [|discriminate].
  destruct (kelvin_to_celsius (lookup d "ImageTemperatureMax" JNone))
    as [tmax|] eqn:Emax; [|discriminate].
  destruct (kelvin_to_celsius (lookup d "ImageTemperatureMin" JNone))
    as [tmin|] eqn:Emin; [|discriminate].
  inversion H. subst r. clear H.
  apply complete_spec in Hc. simpl in Hc.
  destruct Hc as [[t0 Ht] [[x [Hx Nx]] [y [Hy Ny]]]]. subst t tmax tmin.
  assert (Hnum : forall v c, kelvin_to_celsius v = Ok (Some c) ->
                             PyFloat.is_nan c = false ->
                             isinstance_int_float v = true /\ v <> JFloat S754_nan).
  { intros v c Hv Hc. split.
    - destruct (isinstance_int_float v) eqn:Ei; [reflexivity|].
      unfold kelvin_to_celsius in Hv. rewrite Ei in Hv. discriminate.
    - intros ->. vm_compute in Hv. inversion Hv. subst c. discriminate. }
  split; [eapply Hnum; eauto|]. split; [eapply Hnum; eauto|]. split.
  - intros E. rewrite E in Et. discriminate.
  - intros s E. rewrite E in Et.
    destruct (today_now s) eqn:En.
    + rewrite (to_naive_datetime_today_now _ _ En) in Et. discriminate.
    + split; [reflexivity|]. intros Hs.
      rewrite (to_naive_datetime_unparsed _ _ En Hs) in Et. discriminate.
Qed.

Lemma plotted_needs_numbers_witness :
  (isinstance_int_float (JInt 300) = true /\ JInt 300 <> JFloat S754_nan) /\
  (isinstance_int_float (JFloat (centi 29565)) = true
   /\ JFloat (centi 29565) <> JFloat S754_nan) /\
  JStr "2024:01:01 10:00:00.000+02:00" <> JNone /\
  (forall s, JStr "2024:01:01 10:00:00.000+02:00" = JStr s ->
             today_now s = false /\ strptime datetime_format s <> None).
Proof.
  apply (plotted_needs_numbers (fun _ => Ok None) (mkPath "photos" "a.jpg")
           [ ("DateTimeOriginal", JStr "2024:01:01 10:00:00.000+02:00");
             ("ImageTemperatureMax", JInt 300);
             ("ImageTemperatureMin", JFloat (centi 29565)) ]
           (mkRecord "a.jpg" (Some (mkTimestamp 1704096000000000000 None)) (JStr "N/A")
                     (Some (centi 2685)) (Some (centi 2250)))).
  - vm_compute. reflexivity.
  - vm_compute. reflexivity.
Defined.

(* ================================================================= *)
(** ** The two platforms *)

Lemma lowercase_app (a b : string) : lowercase (a ++ b) = lowercase a ++ lowercase b.
Proof.
  induction a as [|c a IH]; simpl; [reflexivity|]. rewrite IH. reflexivity.
Qed.

Lemma image_name_lowercase (n : string) : image_name n -> image_name (lowercase n).
Proof.
  intros [[stem ->]|[[stem ->]|[stem ->]]]; rewrite lowercase_app;
    [left|right; left|right; right]; exists (lowercase stem); reflexivity.
Qed.

Lemma is_image_spec (os : platform) (n : string) :
  is_image os n = true <-> image_name (casefold os n).
Proof.
  unfold is_image, image_name.
  destruct (casefold_patterns os) as [-> [-> ->]].
  rewrite !orb_true_iff, !fnmatch_star_plain by reflexivity. tauto.
Qed.

Lemma filter_length_implies {A : Type} (p q : A -> bool) (l : list A) :
  (forall x, p x = true -> q x = true) ->
  (List.length (filter p l) <= List.length (filter q l))%nat.
Proof.
  intros H. induction l as [|a l IH]; simpl; [lia|].
  destruct (p a) eqn:E.
  - rewrite (H a E). simpl. lia.
  - destruct (q a); simpl; lia.
Qed.

(** X17: the files found on Windows include the files found on POSIX in
    the same folder: a name that matches a pattern as written matches it
    without regard to case. So moving the script from POSIX to Windows
    never loses a file, and may add some. *)
Theorem windows_finds_more (folder : string) (entries : list string) :
  (forall photo,
      In photo (photos_of Posix folder entries) ->
      In photo (photos_of Windows folder entries)) /\
  (List.length (photos_of Posix folder entries)
   <= List.length (photos_of Windows folder entries))%nat.
Proof.
  assert (H : forall n, is_image Posix n = true -> is_image Windows n = true).
  { intros n Hn. apply is_image_spec. apply is_image_spec in Hn.
    simpl in *. apply image_name_lowercase, Hn. }
  split.
  - intros photo Hin. apply photos_of_spec. apply photos_of_spec in Hin.
    destruct Hin as [Hp [He Hn]]. split; [exact Hp|]. split; [exact He|].
    simpl in *. apply image_name_lowercase, Hn.
  - rewrite <- (length_map name (photos_of Posix folder entries)),
            <- (length_map name (photos_of Windows folder entries)).
    rewrite (Permutation_length (photos_of_names Posix folder entries)),
            (Permutation_length (photos_of_names Windows folder entries)).
    apply filter_length_implies, H.
Qed.

Lemma windows_finds_more_witness :
  In (mkPath "photos" "a.jpg") (photos_of Windows "photos" ["a.jpg"; "IMG_1.JPG"]).
Proof.
  apply (proj1 (windows_finds_more "photos" ["a.jpg"; "IMG_1.JPG"])).
  left. reflexivity.
Defined.
